(** * PyTradeLib: the SQLite store and the Yahoo minute-bar provider

    A shallow embedding of
      - [src/pytradelab/db.py]  (class [Database]) and
      - [src/pytradelib/data/providers/yahoo/minute.py]
        (class [YahooFrequencyProvider]),
    followed by the properties of the specification that concern them.

    Python 2 is dynamically typed and both files lean on that, so the
    embedding works over a small universe of Python values and an
    exception monad.  Everything that the interpreter, the [datetime]
    module and SQLite do for the two files is written out as executable
    definitions. *)

From Stdlib Require Import ZArith List String Ascii Bool Lia Permutation.
From Stdlib Require Import Floats.SpecFloat.
Import ListNotations.

Local Open Scope string_scope.
Local Open Scope Z_scope.

(** ** Exceptions and results *)

Module Py.

(** The exception classes that the two files can raise or let escape.
    [InterfaceError] to [OperationalError] are the [sqlite3] module's,
    [ReError] is the [re] module's [error]. *)
Inductive exn : Type :=
| IndexError
| KeyError
| ValueError
| TypeError
| AttributeError
| OverflowError
| InterfaceError
| IntegrityError
| ProgrammingError
| OperationalError
| ReError.

(** [LookupError] is the common base class of [IndexError] and [KeyError]:
    the errors of a failed subscript [x[i]]. *)
Definition is_LookupError (e : exn) : bool :=
  match e with
  | IndexError | KeyError => true
  | _ => false
  end.

(** A computation either returns or raises. *)
Inductive result (A : Type) : Type :=
| Ok (a : A)
| Raise (e : exn).
Arguments Ok {A} a.
Arguments Raise {A} e.

Definition bind {A B : Type} (m : result A) (k : A -> result B) : result B :=
  match m with
  | Ok a => k a
  | Raise e => Raise e
  end.

Definition is_ok {A : Type} (m : result A) : bool :=
  match m with Ok _ => true | Raise _ => false end.

(** [mapM f l] runs [f] over [l] from left to right and stops at the first
    exception, as a [for] loop whose body may raise does. *)
Fixpoint mapM {A B : Type} (f : A -> result B) (l : list A) : result (list B) :=
  match l with
  | [] => Ok []
  | x :: l' =>
      bind (f x) (fun y => bind (mapM f l') (fun ys => Ok (y :: ys)))
  end.

End Py.

Import Py.

Notation "x <- m ;; k" := (bind m (fun x => k))
  (at level 61, m at next level, right associativity).
Notation "' pat <- m ;; k" := (bind m (fun x => match x with pat => k end))
  (at level 61, pat pattern, m at next level, right associativity).

(** ** Byte strings ([str] of Python 2) *)

Module Str.

Definition nl : ascii := ascii_of_nat 10.
Definition comma : ascii := ","%char.

(** C-locale [isspace]: space, [\t], [\n], [\v], [\f], [\r]. *)
Definition isspace (c : ascii) : bool :=
  let n := nat_of_ascii c in
  (Nat.eqb n 32 || (Nat.leb 9 n && Nat.leb n 13))%bool.

Definition isdigit (c : ascii) : bool :=
  let n := nat_of_ascii c in (Nat.leb 48 n && Nat.leb n 57)%bool.

Definition digit_val (c : ascii) : Z := Z.of_nat (nat_of_ascii c) - 48.

Fixpoint lstrip (s : string) : string :=
  match s with
  | String c s' => if isspace c then lstrip s' else s
  | EmptyString => EmptyString
  end.

(** [rstrip] keeps a character when it is not a space or when something
    that is kept follows it. *)
Fixpoint rstrip (s : string) : string :=
  match s with
  | EmptyString => EmptyString
  | String c s' =>
      match rstrip s' with
      | EmptyString => if isspace c then EmptyString else String c EmptyString
      | r => String c r
      end
  end.

(** [s.strip()] *)
Definition strip (s : string) : string := rstrip (lstrip s).

(** [s.split(sep)] for a one-character separator: always at least one
    piece, empty pieces are kept. *)
Fixpoint split (sep : ascii) (s : string) : list string :=
  match s with
  | EmptyString => [EmptyString]
  | String c s' =>
      if Ascii.eqb c sep then EmptyString :: split sep s'
      else
        match split sep s' with
        | p :: ps => String c p :: ps
        | [] => [String c EmptyString]
        end
  end.

(** [sep.join(l)] *)
Definition join (sep : string) (l : list string) : string := String.concat sep l.

(** [s.startswith(p)] *)
Fixpoint startswith (s p : string) {struct p} : bool :=
  match p, s with
  | EmptyString, _ => true
  | String a p', String b s' => Ascii.eqb a b && startswith s' p'
  | String _ _, EmptyString => false
  end.

(** [s[n:]] for [n >= 0] *)
Fixpoint drop (n : nat) (s : string) : string :=
  match n, s with
  | O, _ => s
  | S n', String _ s' => drop n' s'
  | S _, EmptyString => EmptyString
  end.

(** Leading run of decimal digits and the rest. *)
Fixpoint span_digits (s : string) : string * string :=
  match s with
  | String c s' =>
      if isdigit c then let '(d, r) := span_digits s' in (String c d, r)
      else (EmptyString, s)
  | EmptyString => (EmptyString, EmptyString)
  end.

Fixpoint digits_value (acc : Z) (s : string) : Z :=
  match s with
  | String c s' => digits_value (10 * acc + digit_val c) s'
  | EmptyString => acc
  end.

(** Decimal digits of a natural number, most significant first. *)
Fixpoint digits_of_pos_fuel (fuel : nat) (n : Z) (acc : string) : string :=
  match fuel with
  | O => acc
  | S f =>
      let acc' := String (ascii_of_nat (Z.to_nat (48 + n mod 10))) acc in
      if n / 10 =? 0 then acc' else digits_of_pos_fuel f (n / 10) acc'
  end.

Definition digits_of_nonneg (n : Z) : string :=
  digits_of_pos_fuel (S (Z.to_nat (Z.log2 n))) n EmptyString.

(** ['%i' % n] for an integer [n] *)
Definition of_Z (n : Z) : string :=
  if n <? 0 then String "-"%char (digits_of_nonneg (- n)) else digits_of_nonneg n.

(** Left padding with zeros to a width, as [%02d] does. *)
Fixpoint zfill_fuel (fuel : nat) (w : nat) (s : string) : string :=
  match fuel with
  | O => s
  | S f => if Nat.ltb (String.length s) w then zfill_fuel f w (String "0"%char s) else s
  end.
Definition zfill (w : nat) (s : string) : string := zfill_fuel w w s.

End Str.

(** ** [int(s)] on a byte string

    [PyInt_FromString] in base 10: optional white space, an optional sign,
    optional white space again (the C helper [PyOS_strtoul] skips it, so
    Python 2 accepts ['- 5']), at least one digit, optional white space,
    end of string.  Anything else is a [ValueError]. *)
Definition py_int (s : string) : result Z :=
  let s1 := Str.lstrip s in
  let '(neg, s2) :=
    match s1 with
    | String "-"%char r => (true, r)
    | String "+"%char r => (false, r)
    | _ => (false, s1)
    end in
  let '(ds, rest) := Str.span_digits (Str.lstrip s2) in
  match ds, Str.lstrip rest with
  | String _ _, EmptyString =>
      let v := Str.digits_value 0 ds in Ok (if neg then - v else v)
  | _, _ => Raise ValueError
  end.


(** ** The [datetime] and [calendar] modules *)

Module Datetime.

(** A naive [datetime.datetime]: calendar fields without a time zone. *)
Record datetime : Type := mk_datetime {
  year : Z; month : Z; day : Z;
  hour : Z; minute : Z; second : Z; microsecond : Z
}.

(** A [datetime.time]: a time of day. *)
Record time : Type := mk_time {
  t_hour : Z; t_minute : Z; t_second : Z; t_microsecond : Z
}.

Definition datetime_eqb (a b : datetime) : bool :=
  (year a =? year b) && (month a =? month b) && (day a =? day b) &&
  (hour a =? hour b) && (minute a =? minute b) && (second a =? second b) &&
  (microsecond a =? microsecond b).

(** [dt.time()] *)
Definition time_of (dt : datetime) : time :=
  mk_time (hour dt) (minute dt) (second dt) (microsecond dt).

(** [a < b] on [datetime.time] values: field by field, most significant
    first. *)
Definition time_ltb (a b : time) : bool :=
  match t_hour a ?= t_hour b with
  | Lt => true
  | Gt => false
  | Eq =>
      match t_minute a ?= t_minute b with
      | Lt => true
      | Gt => false
      | Eq =>
          match t_second a ?= t_second b with
          | Lt => true
          | Gt => false
          | Eq => t_microsecond a <? t_microsecond b
          end
      end
  end.

(** *** The proleptic Gregorian calendar, as [datetime.py] computes it *)

Definition is_leap (y : Z) : bool :=
  (y mod 4 =? 0) && (negb (y mod 100 =? 0) || (y mod 400 =? 0)).

Definition days_in_month (y m : Z) : Z :=
  if m =? 2 then (if is_leap y then 29 else 28)
  else if (m =? 4) || (m =? 6) || (m =? 9) || (m =? 11) then 30
  else 31.

(** Days in the year before the first of month [m] (non-leap table). *)
Definition DAYS_BEFORE_MONTH (m : Z) : Z :=
  nth (Z.to_nat m) [0; 0; 31; 59; 90; 120; 151; 181; 212; 243; 273; 304; 334] 0.

Definition days_before_year (y : Z) : Z :=
  let y' := y - 1 in y' * 365 + y' / 4 - y' / 100 + y' / 400.

Definition days_before_month (y m : Z) : Z :=
  DAYS_BEFORE_MONTH m + (if (2 <? m) && is_leap y then 1 else 0).

(** [date(y, m, d).toordinal()]: 1 is 0001-01-01. *)
Definition ymd2ord (y m d : Z) : Z :=
  days_before_year y + days_before_month y m + d.

Definition DI400Y : Z := 146097.
Definition DI100Y : Z := 36524.
Definition DI4Y : Z := 1461.

(** [_ord2ymd]: the inverse of [ymd2ord]. *)
Definition ord2ymd (ord : Z) : Z * Z * Z :=
  let n := ord - 1 in
  let n400 := n / DI400Y in
  let n := n mod DI400Y in
  let n100 := n / DI100Y in
  let n := n mod DI100Y in
  let n4 := n / DI4Y in
  let n := n mod DI4Y in
  let n1 := n / 365 in
  let n := n mod 365 in
  let y := n400 * 400 + 1 + n100 * 100 + n4 * 4 + n1 in
  if (n1 =? 4) || (n100 =? 4) then (y - 1, 12, 31)
  else
    let leapyear := (n1 =? 3) && (negb (n4 =? 24) || (n100 =? 3)) in
    let m := Z.shiftr (n + 50) 5 in
    let preceding := DAYS_BEFORE_MONTH m + (if (2 <? m) && leapyear then 1 else 0) in
    if n <? preceding then
      let m' := m - 1 in
      let preceding' :=
        preceding -
        (nth (Z.to_nat m') [0; 31; 28; 31; 30; 31; 30; 31; 31; 30; 31; 30; 31] 0 +
         (if (m' =? 2) && leapyear then 1 else 0)) in
      (y, m', n - preceding' + 1)
    else (y, m, n - preceding + 1).

(** Ordinal of 1970-01-01 ([_EPOCH_ORD] of [calendar.py]). *)
Definition EPOCH_ORD : Z := 719163.
(** Ordinal of 9999-12-31, the last day a [datetime] can hold. *)
Definition MAX_ORD : Z := 3652059.

(** [calendar.timegm(dt.timetuple())]: the calendar fields read as UTC,
    in whole seconds since the epoch (the microseconds are not part of a
    time tuple). *)
Definition timegm (dt : datetime) : Z :=
  let days := ymd2ord (year dt) (month dt) 1 - EPOCH_ORD + day dt - 1 in
  let hours := days * 24 + hour dt in
  let minutes := hours * 60 + minute dt in
  minutes * 60 + second dt.

(** [datetime.utcfromtimestamp] on an integer, before the range check. *)
Definition of_seconds (t : Z) : result datetime :=
  let ord := t / 86400 + EPOCH_ORD in
  let s := t mod 86400 in
  if (ord <? 1) || (MAX_ORD <? ord) then Raise ValueError
  else
    let '(y, m, d) := ord2ymd ord in
    Ok (mk_datetime y m d (s / 3600) (s mod 3600 / 60) (s mod 60) 0).

Section LocalTime.

(** The time zone of the process: [utcoffset t] is the number of seconds
    that local time is ahead of UTC at the instant [t] (seconds since the
    epoch).  It is what the C library's [localtime] reads from the
    environment. *)
Variable utcoffset : Z -> Z.

(** [datetime.datetime.fromtimestamp(t)] for an integer [t]: the local
    calendar time of the instant.  The argument is converted to a C double
    first, which overflows from [2^1024] on; a year outside 1..9999 is a
    [ValueError]. *)
Definition fromtimestamp (t : Z) : result datetime :=
  if 2 ^ 1024 <=? Z.abs t then Raise OverflowError
  else of_seconds (t + utcoffset t).

End LocalTime.

(** *** Formats

    A [strftime]/[strptime] format restricted to the numeric directives
    [%Y %m %d %H %M %S] and literal characters ([%%] is the literal
    [%]). *)
Inductive directive : Type :=
| DY | Dm | Dd | DH | DM | DS
| Lit (c : ascii).

Definition format : Type := list directive.

Definition pad2 (n : Z) : string := Str.zfill 2 (Str.of_Z n).

Definition strftime_item (dt : datetime) (d : directive) : string :=
  match d with
  | DY => Str.of_Z (year dt)
  | Dm => pad2 (month dt)
  | Dd => pad2 (day dt)
  | DH => pad2 (hour dt)
  | DM => pad2 (minute dt)
  | DS => pad2 (second dt)
  | Lit c => String c EmptyString
  end.

(** [dt.strftime(fmt)]; Python 2 refuses years before 1900. *)
Definition strftime (dt : datetime) (fmt : format) : result string :=
  if year dt <? 1900 then Raise ValueError
  else Ok (String.concat "" (map (strftime_item dt) fmt)).

(** *** [datetime.strptime]

    [_strptime.py] turns the format into a regular expression, matches it
    against the start of the string, and then insists that nothing is
    left over.  Each directive is an alternation tried from left to right
    with backtracking; literal characters match without regard to case
    and a run of white space in the format matches any non-empty run of
    white space. *)

Inductive re_item : Type :=
| RDir (d : directive)
| RChar (c : ascii)
| RSpaces.

Fixpoint compile (fmt : format) : list re_item :=
  match fmt with
  | [] => []
  | Lit c :: fmt' =>
      if Str.isspace c then
        match compile fmt' with
        | RSpaces :: r => RSpaces :: r
        | r => RSpaces :: r
        end
      else RChar c :: compile fmt'
  | d :: fmt' => RDir d :: compile fmt'
  end.

Definition in_range (lo hi c : ascii) : bool :=
  (Nat.leb (nat_of_ascii lo) (nat_of_ascii c) &&
   Nat.leb (nat_of_ascii c) (nat_of_ascii hi))%bool.

(** One alternative of a directive: [pat2] is a two-character class
    sequence, [pat1] a one-character class. *)
Definition pat2 (lo1 hi1 lo2 hi2 : ascii) (s : string) : option (Z * string) :=
  match s with
  | String c1 (String c2 r) =>
      if (in_range lo1 hi1 c1 && in_range lo2 hi2 c2)%bool
      then Some (10 * Str.digit_val c1 + Str.digit_val c2, r)
      else None
  | _ => None
  end.

Definition pat1 (lo hi : ascii) (s : string) : option (Z * string) :=
  match s with
  | String c r => if in_range lo hi c then Some (Str.digit_val c, r) else None
  | _ => None
  end.

Definition pat_space_digit (s : string) : option (Z * string) :=
  match s with
  | String " "%char r => pat1 "1" "9" r
  | _ => None
  end.

Definition pat4 (s : string) : option (Z * string) :=
  match s with
  | String c1 (String c2 (String c3 (String c4 r))) =>
      if (Str.isdigit c1 && Str.isdigit c2 && Str.isdigit c3 && Str.isdigit c4)%bool
      then Some (Str.digits_value 0 (String c1 (String c2 (String c3 (String c4 EmptyString)))), r)
      else None
  | _ => None
  end.

(** The alternatives of each directive, in the order of [TimeRE]. *)
Definition alternatives (d : directive) : list (string -> option (Z * string)) :=
  match d with
  | DY => [pat4]
  | Dm => [pat2 "1" "1" "0" "2"; pat2 "0" "0" "1" "9"; pat1 "1" "9"]
  | Dd => [pat2 "3" "3" "0" "1"; pat2 "1" "2" "0" "9"; pat2 "0" "0" "1" "9";
           pat1 "1" "9"; pat_space_digit]
  | DH => [pat2 "2" "2" "0" "3"; pat2 "0" "1" "0" "9"; pat1 "0" "9"]
  | DM => [pat2 "0" "5" "0" "9"; pat1 "0" "9"]
  | DS => [pat2 "6" "6" "0" "1"; pat2 "0" "5" "0" "9"; pat1 "0" "9"]
  | Lit _ => []
  end.

Definition lower (c : ascii) : ascii :=
  if in_range "A" "Z" c then ascii_of_nat (nat_of_ascii c + 32) else c.

(** The fields found so far; what the format does not mention keeps the
    defaults 1900-01-01 00:00:00. *)
Definition set_field (d : directive) (v : Z) (dt : datetime) : datetime :=
  match d with
  | DY => mk_datetime v (month dt) (day dt) (hour dt) (minute dt) (second dt) 0
  | Dm => mk_datetime (year dt) v (day dt) (hour dt) (minute dt) (second dt) 0
  | Dd => mk_datetime (year dt) (month dt) v (hour dt) (minute dt) (second dt) 0
  | DH => mk_datetime (year dt) (month dt) (day dt) v (minute dt) (second dt) 0
  | DM => mk_datetime (year dt) (month dt) (day dt) (hour dt) v (second dt) 0
  | DS => mk_datetime (year dt) (month dt) (day dt) (hour dt) (minute dt) v 0
  | Lit _ => dt
  end.

(** The strings left after one, two, ... leading white-space characters,
    longest run first ([\s+] is greedy). *)
Fixpoint space_runs (s : string) : list string :=
  match s with
  | String c r => if Str.isspace c then space_runs r ++ [r] else []
  | EmptyString => []
  end.

(** Ways for one item to match at the start of [s], best first. *)
Definition candidates (it : re_item) (s : string) (dt : datetime)
  : list (datetime * string) :=
  match it with
  | RDir d =>
      flat_map (fun alt => match alt s with
                           | Some (v, r) => [(set_field d v dt, r)]
                           | None => []
                           end) (alternatives d)
  | RChar c =>
      match s with
      | String c' r => if Ascii.eqb (lower c) (lower c') then [(dt, r)] else []
      | EmptyString => []
      end
  | RSpaces => map (fun r => (dt, r)) (space_runs s)
  end.

Fixpoint first_some {A B : Type} (f : A -> option B) (l : list A) : option B :=
  match l with
  | [] => None
  | x :: l' => match f x with Some y => Some y | None => first_some f l' end
  end.

(** The first match of the whole expression in backtracking order. *)
Fixpoint re_match (re : list re_item) (s : string) (dt : datetime)
  : option (datetime * string) :=
  match re with
  | [] => Some (dt, s)
  | it :: re' =>
      first_some (fun c => re_match re' (snd c) (fst c)) (candidates it s dt)
  end.

Definition directive_code (d : directive) : nat :=
  match d with
  | DY => 1 | Dm => 2 | Dd => 3 | DH => 4 | DM => 5 | DS => 6 | Lit _ => 0
  end%nat.

(** A directive used twice names a group twice, which [re] refuses. *)
Fixpoint repeats_directive (fmt : format) : bool :=
  match fmt with
  | [] => false
  | Lit _ :: fmt' => repeats_directive fmt'
  | d :: fmt' =>
      (existsb (fun d' => Nat.eqb (directive_code d) (directive_code d')) fmt'
       || repeats_directive fmt')%bool
  end.

(** [datetime.datetime.strptime(s, fmt)] *)
Definition strptime (s : string) (fmt : format) : result datetime :=
  if repeats_directive fmt then Raise ReError
  else
    match re_match (compile fmt) s (mk_datetime 1900 1 1 0 0 0 0) with
    | Some (dt, EmptyString) =>
        if ((1 <=? year dt) && (day dt <=? days_in_month (year dt) (month dt))
            && (second dt <=? 59))%bool
        then Ok dt else Raise ValueError
    | _ => Raise ValueError
    end.

End Datetime.

(** ** Python floats

    A [float] is an IEEE 754 binary64 number; [spec_float] with precision
    53 and maximal exponent 1024 is exactly that (without NaN payloads).
    All values built here are in canonical form, which the comparison
    functions of [SpecFloat] expect. *)

Module Float.

Definition float : Type := spec_float.

Definition prec : Z := 53.
Definition emax : Z := 1024.

(** [a <= b], [a >= b] with IEEE semantics: false when either is a NaN. *)
Definition leb (a b : float) : bool := SFleb a b.
Definition geb (a b : float) : bool := SFleb b a.

Definition zero : float := S754_zero false.

(** The binary64 number nearest to [(-1)^neg * d * 10^k], ties to even;
    this is what the correctly rounded [strtod] of Python 2.7 returns. *)
Definition of_decimal (neg : bool) (d : Z) (k : Z) : float :=
  match d with
  | Zpos p =>
      if 0 <=? k then
        binary_round prec emax neg (p * Z.to_pos (10 ^ k)) 0
      else
        SFdiv prec emax (S754_finite neg p 0)
                        (S754_finite false (Z.to_pos (10 ^ (- k))) 0)
  | _ => S754_zero neg
  end.

(** [Some v] when [s] starts with [p] in any letter case; [v] is the rest. *)
Fixpoint strip_prefix_nocase (p s : string) : option string :=
  match p, s with
  | EmptyString, _ => Some s
  | String a p', String b s' =>
      if Ascii.eqb a (Datetime.lower b) then strip_prefix_nocase p' s' else None
  | _, _ => None
  end.

(** The numeric part of a float literal, after the sign: an infinity, a
    NaN, or digits with an optional point and an optional exponent.  An
    [e] that no digit follows is not part of the number. *)
Definition parse_unsigned (neg : bool) (s : string) : option (float * string) :=
  match strip_prefix_nocase "inf" s with
  | Some r =>
      match strip_prefix_nocase "inity" r with
      | Some r' => Some (S754_infinity neg, r')
      | None => Some (S754_infinity neg, r)
      end
  | None =>
  match strip_prefix_nocase "nan" s with
  | Some r => Some (S754_nan, r)
  | None =>
      let '(ip, r1) := Str.span_digits s in
      let '(fp, r2) :=
        match r1 with
        | String "."%char r => Str.span_digits r
        | _ => (EmptyString, r1)
        end in
      match (ip ++ fp)%string with
      | EmptyString => None
      | ds =>
          let '(ex, r3) :=
            match strip_prefix_nocase "e" r2 with
            | Some r =>
                let '(eneg, r') :=
                  match r with
                  | String "-"%char x => (true, x)
                  | String "+"%char x => (false, x)
                  | _ => (false, r)
                  end in
                match Str.span_digits r' with
                | (EmptyString, _) => (0, r2)
                | (ed, r'') =>
                    let v := Str.digits_value 0 ed in
                    ((if eneg then - v else v), r'')
                end
            | None => (0, r2)
            end in
          Some (of_decimal neg (Str.digits_value 0 ds)
                           (ex - Z.of_nat (String.length fp)), r3)
      end
  end
  end.

(** [float(s)] on a byte string: white space, an optional sign directly
    followed by the number, white space, end of string. *)
Definition py_float (s : string) : result float :=
  let s1 := Str.lstrip s in
  let '(neg, s2) :=
    match s1 with
    | String "-"%char r => (true, r)
    | String "+"%char r => (false, r)
    | _ => (false, s1)
    end in
  match parse_unsigned neg s2 with
  | Some (x, rest) =>
      match Str.lstrip rest with
      | EmptyString => Ok x
      | _ => Raise ValueError
      end
  | None => Raise ValueError
  end.

(** [n / d] rounded to the nearest integer, ties to even ([0 < d]). *)
Definition div_nearest_even (n d : Z) : Z :=
  let q := n / d in
  let r := n mod d in
  match 2 * r ?= d with
  | Lt => q
  | Gt => q + 1
  | Eq => if Z.even q then q else q + 1
  end.

(** [|x| * 10^k] rounded to the nearest integer, ties to even, for a
    finite non-zero [x = m * 2^e]. *)
Definition scaled_nearest (m : positive) (e : Z) (k : Z) : Z :=
  let num := Zpos m * (if 0 <=? e then 2 ^ e else 1) * (if 0 <=? k then 10 ^ k else 1) in
  let den := (if 0 <=? e then 1 else 2 ^ (- e)) * (if 0 <=? k then 1 else 10 ^ (- k)) in
  div_nearest_even num den.

Definition sign_prefix (neg : bool) : string := if neg then "-" else "".

(** Fixed notation with two decimals: [n] is the value in hundredths. *)
Definition fixed2 (neg : bool) (n : Z) : string :=
  (sign_prefix neg ++ Str.of_Z (n / 100) ++ "." ++ Str.zfill 2 (Str.of_Z (n mod 100)))%string.

(** ['%.2f' % x]: fixed notation at every magnitude (the interpreter is a
    Python 2.7, which the [OrderedDict] import of [db.py] requires; its
    [%f] no longer falls back on [%g] for large values). *)
Definition format_2f (x : float) : string :=
  match x with
  | S754_zero s => fixed2 s 0
  | S754_infinity s => (sign_prefix s ++ "inf")%string
  | S754_nan => "nan"
  | S754_finite s m e => fixed2 s (scaled_nearest m e 2)
  end.

(** [int(x)]: truncation towards zero; an infinity is an
    [OverflowError] and a NaN a [ValueError]. *)
Definition py_trunc (x : float) : result Z :=
  match x with
  | S754_zero _ => Ok 0
  | S754_infinity _ => Raise OverflowError
  | S754_nan => Raise ValueError
  | S754_finite s m e =>
      let a := if 0 <=? e then Zpos m * 2 ^ e else Zpos m / 2 ^ (- e) in
      Ok (if s then - a else a)
  end.

(** ['%i' % x] for a float [x]: the digits of [int(x)].  Where that
    conversion fails (an infinity, a NaN) string formatting drops its
    exception and raises its own [TypeError], "%d format: a number is
    required, not float". *)
Definition format_i (x : float) : result string :=
  match py_trunc x with
  | Ok n => Ok (Str.of_Z n)
  | Raise _ => Raise TypeError
  end.

End Float.

(** ** [pytradelib.bar.Bar] *)

Module Bar.

Import Float.

(** Modelled from the spec: [pytradelib/bar.py] is not among the sources.
    One OHLCV sample [{datetime, open, high, low, close, volume,
    adjusted_close}]; the getters [get_date_time], [get_open], ... that
    [bar_to_row] calls are the projections. *)
Record Bar : Type := mk_Bar {
  get_date_time : Datetime.datetime;
  get_open : float;
  get_high : float;
  get_low : float;
  get_close : float;
  get_volume : float;
  get_adj_close : float
}.

(** Modelled from the spec: the ordering invariants of the prices,
    [low <= open, close, high] and [high >= open, close, low], as a
    decidable check. *)
Definition ohlc_ok (open_ high low close : float) : bool :=
  leb low open_ && leb low close && leb low high &&
  geb high open_ && geb high close && geb high low.

(** Modelled from the spec: the invariants of a bar, [low <= open, close,
    high], [high >= open, close, low] and [volume >= 0], each with the
    text that describes it. *)
Definition invariants : list (string * (Bar -> bool)) :=
  [ ("low <= open",   fun b => leb (get_low b) (get_open b));
    ("low <= close",  fun b => leb (get_low b) (get_close b));
    ("low <= high",   fun b => leb (get_low b) (get_high b));
    ("high >= open",  fun b => geb (get_high b) (get_open b));
    ("high >= close", fun b => geb (get_high b) (get_close b));
    ("high >= low",   fun b => geb (get_high b) (get_low b));
    ("volume >= 0",   fun b => geb (get_volume b) zero) ].

(** The first invariant that a candidate bar breaks, if any. *)
Fixpoint first_violation (checks : list (string * (Bar -> bool))) (b : Bar)
  : option string :=
  match checks with
  | [] => None
  | (name, ok) :: rest => if ok b then first_violation rest b else Some name
  end.

(** Modelled from the spec: the constructor
    [Bar(date, open, high, low, close, volume, adj_close)] of the missing
    [pytradelib/bar.py].  It checks the invariants with assertions;
    [inl msg] is the [AssertionError] carrying a description of the broken
    invariant, [inr b] the bar. *)
Definition init (date : Datetime.datetime)
    (open_ high low close volume adj_close : float) : string + Bar :=
  let b := mk_Bar date open_ high low close volume adj_close in
  match first_violation invariants b with
  | Some msg => inl msg
  | None => inr b
  end.

End Bar.

(** ** [pytradelib/data/providers/yahoo/minute.py] *)

Module Minute.

Import Datetime Float.

(** What [row_to_bar] hands back: a bar, or the text of the assertion
    that refused it. *)
Inductive decoded : Type :=
| Decoded (b : Bar.Bar)
| Failure (msg : string).

(** A line written by [print]. *)
Inductive message : Type :=
| DownloadError (symbol : string) (text : string)
    (* 'error downloading minute data for %s: %s' *)
| DateError (symbol : string) (e : exn)
    (* 'error converting date for %s: %s' *).

(** What one symbol-day comes to: a yielded row list, a [continue], or an
    exception that leaves the generator. *)
Inductive outcome : Type :=
| Yield (rows : list string)
| Skip
| Abort (e : exn).

(** [l[i]] on a list *)
Definition getitem {A : Type} (l : list A) (i : nat) : result A :=
  match nth_error l i with
  | Some x => Ok x
  | None => Raise IndexError
  end.

(** [self.__columns] *)
Definition columns : list string :=
  ["DateTime"; "Close"; "High"; "Low"; "Open"; "Volume"].

Definition get_csv_column_labels : string := Str.join "," columns.

Section Provider.

(** The environment: the time zone of the process, [settings.DATE_FORMAT]
    and [utils.symbol_from_file_path] ([settings] and [utils] are not among
    the sources). *)
Variable utcoffset : Z -> Z.
Variable DATE_FORMAT : format.
Variable symbol_from_file_path : string -> string.

Definition row_to_bar (row : string) : result decoded :=
  let row := Str.split Str.comma row in
  r0 <- getitem row 0 ;;
  date <- match (t <- py_int r0 ;; fromtimestamp utcoffset t) with
          | Raise ValueError => strptime r0 DATE_FORMAT
          | r => r
          end ;;
  close <- (x <- getitem row 1 ;; py_float x) ;;
  high <- (x <- getitem row 2 ;; py_float x) ;;
  low <- (x <- getitem row 3 ;; py_float x) ;;
  open_ <- (x <- getitem row 4 ;; py_float x) ;;
  volume <- (x <- getitem row 5 ;; py_float x) ;;
  match Bar.init date open_ high low close volume close with
  | inr b => Ok (Decoded b)
  | inl e => Ok (Failure e)
  end.

Definition bar_to_row (bar_ : Bar.Bar) : result string :=
  let c0 := Str.of_Z (timegm (Bar.get_date_time bar_)) in
  let c1 := format_2f (Bar.get_close bar_) in
  let c2 := format_2f (Bar.get_high bar_) in
  let c3 := format_2f (Bar.get_low bar_) in
  let c4 := format_2f (Bar.get_open bar_) in
  c5 <- format_i (Bar.get_volume bar_) ;;
  Ok (Str.join "," [c0; c1; c2; c3; c4; c5]).

(** The header loop over [enumerate(data_rows)].  [rest] is
    [data_rows[i:]]; the result is what was printed, and then either the
    exception that ended the loop or the flag [error] together with the
    rows after a [volume] line when there is one. *)
Fixpoint scan_header (symbol : string) (rest : list string)
  : list message * result (bool * option (list string)) :=
  match rest with
  | [] => ([], Ok (false, None))
  | row :: rest' =>
      if Str.startswith row "error" then
        match rest' with
        | next :: _ =>
            let '(out, r) := scan_header symbol rest' in
            (DownloadError symbol (Str.drop 8 next) :: out,
             '(_, cut) <- r ;; Ok (true, cut))
        | [] => ([], Raise IndexError)
        end
      else if Str.startswith row "volume" then ([], Ok (false, Some rest'))
      else scan_header symbol rest'
  end.

(** The body of the date-conversion loop for one row. *)
Definition convert_row (row : string) : result string :=
  let columns := Str.split Str.comma row in
  c0 <- getitem columns 0 ;;
  t <- py_int c0 ;;
  dt <- fromtimestamp utcoffset t ;;
  c0' <- strftime dt DATE_FORMAT ;;
  Ok (Str.join "," (c0' :: tl columns)).

Definition market_open : time := mk_time 9 30 0 0.
Definition market_close : time := mk_time 16 0 0 0.

(** [datetime.time(9, 30) < now < datetime.time(16)] *)
Definition in_session (now : time) : bool :=
  time_ltb market_open now && time_ltb now market_close.

(** The last step before [yield]: [data_rows.pop(-1)] under its guard. *)
Definition withhold (now : time) (data_rows : list string) : list string :=
  if (Nat.ltb 1 (List.length data_rows) && in_session now)%bool
  then removelast data_rows
  else data_rows.

(** One turn of the [for data, file_path in data_file_paths] loop; [now]
    is what [datetime.datetime.now().time()] returns in this turn. *)
Definition process_one (now : time) (data file_path : string)
  : list message * outcome :=
  let symbol := symbol_from_file_path file_path in
  let data_rows := Str.split Str.nl (Str.strip data) in
  match scan_header symbol data_rows with
  | (out, Raise e) => (out, Abort e)
  | (out, Ok (true, _)) => (out, Skip)
  | (out, Ok (false, cut)) =>
      let data_rows := match cut with Some rows => rows | None => data_rows end in
      match mapM convert_row data_rows with
      | Raise e => ((out ++ [DateError symbol e])%list, Skip)
      | Ok data_rows => (out, Yield (withhold now data_rows))
      end
  end.

(** The generator, run to its end: the pairs it yields, what it prints,
    and the exception that ends it early, if any.  [clock i] is the time of
    day at which the [i]-th pair of the input is processed. *)
Record run : Type := mk_run {
  yielded : list (list string * string);
  printed : list message;
  raised : option exn
}.

Fixpoint process_from (clock : nat -> time) (i : nat)
    (data_file_paths : list (string * string)) : run :=
  match data_file_paths with
  | [] => mk_run [] [] None
  | (data, file_path) :: rest =>
      match process_one (clock i) data file_path with
      | (out, Abort e) => mk_run [] out (Some e)
      | (out, Skip) =>
          let r := process_from clock (S i) rest in
          mk_run (yielded r) (out ++ printed r)%list (raised r)
      | (out, Yield rows) =>
          let r := process_from clock (S i) rest in
          mk_run ((rows, file_path) :: yielded r) (out ++ printed r)%list (raised r)
      end
  end.

Definition process_downloaded_data (clock : nat -> time)
    (data_file_paths : list (string * string)) : run :=
  process_from clock 0 data_file_paths.

End Provider.

End Minute.

(** ** Python values for [db.py]

    [db.py] receives lists, tuples and dicts of strings and numbers and
    tells them apart at run time, so its embedding works on a universe of
    values.  A value is a tree: two occurrences of a dict in a list are
    two dicts (no aliasing between the elements of an argument).

    A dict is the list of its items in iteration order, with distinct
    hashable keys.  CPython 2 iterates in hash order, so the order in
    which [dict] leaves the items of a list of pairs (here the order of
    insertion) is one of the orders the interpreter may take; no
    statement below depends on which order a dict has. *)

Module Value.

Import Float.

#[local] Set Warnings "-register-all".

Inductive val : Type :=
| VNone
| VInt (n : Z)
| VFloat (x : float)
| VStr (s : string)
| VTuple (l : list val)
| VList (l : list val)
| VDict (items : list (val * val)).

(** [x == n] for a float and an integer: exact comparison of the values. *)
Definition float_eq_int (x : float) (n : Z) : bool :=
  match x with
  | S754_zero _ => n =? 0
  | S754_finite s m e =>
      let n' := if s then - n else n in
      if 0 <=? e then n' =? Zpos m * 2 ^ e
      else n' * 2 ^ (- e) =? Zpos m
  | _ => false
  end.

(** [a == b] between values that can be dict keys. *)
Fixpoint key_eqb (a b : val) {struct a} : bool :=
  match a, b with
  | VNone, VNone => true
  | VInt m, VInt n => m =? n
  | VFloat x, VFloat y => SFeqb x y
  | VInt n, VFloat x | VFloat x, VInt n => float_eq_int x n
  | VStr s, VStr t => String.eqb s t
  | VTuple l, VTuple l' =>
      (fix all2 (l l' : list val) {struct l} : bool :=
         match l, l' with
         | [], [] => true
         | x :: r, y :: r' => key_eqb x y && all2 r r'
         | _, _ => false
         end) l l'
  | _, _ => false
  end.

(** Values with a hash: everything immutable. *)
Fixpoint hashable (v : val) : bool :=
  match v with
  | VNone | VInt _ | VFloat _ | VStr _ => true
  | VTuple l => forallb hashable l
  | VList _ | VDict _ => false
  end.

Definition isinstance_list (v : val) : bool :=
  match v with VList _ => true | _ => false end.

Definition isinstance_dict (v : val) : bool :=
  match v with VDict _ => true | _ => false end.

(** *** Dicts as item lists *)

Definition items : Type := list (val * val).

Fixpoint lookup (k : val) (d : items) : option val :=
  match d with
  | [] => None
  | (k', v) :: d' => if key_eqb k' k then Some v else lookup k d'
  end.

(** [d[k] = v]: an existing key keeps its place. *)
Fixpoint store (k v : val) (d : items) : items :=
  match d with
  | [] => [(k, v)]
  | (k', v') :: d' =>
      if key_eqb k' k then (k', v) :: d' else (k', v') :: store k v d'
  end.

Fixpoint remove (k : val) (d : items) : items :=
  match d with
  | [] => []
  | (k', v') :: d' => if key_eqb k' k then d' else (k', v') :: remove k d'
  end.

Definition keys (d : items) : list val := map fst d.
Definition values (d : items) : list val := map snd d.

(** *** Operations of the interpreter *)

(** The elements that [for x in v] visits. *)
Definition iterate (v : val) : result (list val) :=
  match v with
  | VStr s => Ok (map (fun c => VStr (String c EmptyString)) (list_ascii_of_string s))
  | VTuple l | VList l => Ok l
  | VDict d => Ok (keys d)
  | VNone | VInt _ | VFloat _ => Raise TypeError
  end.

(** [a, b = v] *)
Definition unpack2 (v : val) : result (val * val) :=
  l <- iterate v ;;
  match l with
  | [a; b] => Ok (a, b)
  | _ => Raise ValueError
  end.

(** [dict(v)]: a dict is copied; anything else must be an iterable of
    two-element iterables with hashable first elements. *)
Fixpoint dict_of_pairs (acc : items) (l : list val) : result items :=
  match l with
  | [] => Ok acc
  | x :: l' =>
      match unpack2 x with
      | Ok (k, v) =>
          if hashable k then dict_of_pairs (store k v acc) l'
          else Raise TypeError
      | Raise e => Raise e
      end
  end.

Definition dict (v : val) : result val :=
  match v with
  | VDict d => Ok (VDict d)
  | _ => l <- iterate v ;; d <- dict_of_pairs [] l ;; Ok (VDict d)
  end.

(** [l[i]] for an integer [i], negative indices counting from the end. *)
Definition index {A : Type} (l : list A) (i : Z) : result A :=
  let n := Z.of_nat (List.length l) in
  let j := if i <? 0 then i + n else i in
  if (j <? 0) || (n <=? j) then Raise IndexError
  else match nth_error l (Z.to_nat j) with
       | Some x => Ok x
       | None => Raise IndexError
       end.

(** [v[k]] *)
Definition subscript (v k : val) : result val :=
  match v with
  | VDict d =>
      if hashable k then
        match lookup k d with
        | Some x => Ok x
        | None => Raise KeyError
        end
      else Raise TypeError
  | VList l | VTuple l =>
      match k with
      | VInt i => index l i
      | _ => Raise TypeError
      end
  | VStr s =>
      match k with
      | VInt i => c <- index (list_ascii_of_string s) i ;; Ok (VStr (String c EmptyString))
      | _ => Raise TypeError
      end
  | VNone | VInt _ | VFloat _ => Raise TypeError
  end.

(** [needle in hay] on strings *)
Fixpoint is_infix (needle hay : string) : bool :=
  Str.startswith hay needle ||
  match hay with
  | String _ hay' => is_infix needle hay'
  | EmptyString => false
  end.

(** [k in v] *)
Definition contains (k v : val) : result bool :=
  match v with
  | VDict d =>
      if hashable k then Ok (match lookup k d with Some _ => true | None => false end)
      else Raise TypeError
  | VList l | VTuple l => Ok (existsb (key_eqb k) l)
  | VStr s =>
      match k with
      | VStr n => Ok (is_infix n s)
      | _ => Raise TypeError
      end
  | VNone | VInt _ | VFloat _ => Raise TypeError
  end.

(** [v.pop(key)] for a string [key]: the popped value and [v] afterwards.
    Only dicts and lists have a [pop]; a list wants an integer. *)
Definition pop (v : val) (key : string) : result (val * val) :=
  match v with
  | VDict d =>
      match lookup (VStr key) d with
      | Some x => Ok (x, VDict (remove (VStr key) d))
      | None => Raise KeyError
      end
  | VList _ => Raise TypeError
  | _ => Raise AttributeError
  end.

(** [v[key] = x] for a string [key]: [v] afterwards. *)
Definition setitem (v : val) (key : string) (x : val) : result val :=
  match v with
  | VDict d => Ok (VDict (store (VStr key) x d))
  | _ => Raise TypeError
  end.

(** [v.keys()] and [v.values()] *)
Definition keys_of (v : val) : result (list val) :=
  match v with
  | VDict d => Ok (keys d)
  | _ => Raise AttributeError
  end.

Definition values_of (v : val) : result (list val) :=
  match v with
  | VDict d => Ok (values d)
  | _ => Raise AttributeError
  end.

(** The strings of a list that [','.join] accepts. *)
Definition strings_of (l : list val) : result (list string) :=
  mapM (fun v => match v with VStr s => Ok s | _ => Raise TypeError end) l.

End Value.

(** ** SQLite, as far as [db.py] uses it

    Tables with an [INTEGER PRIMARY KEY] (the rowid), [UNIQUE] and
    [NOT NULL] columns; the statements [INSERT OR REPLACE INTO t (cols)
    VALUES (?, ...)] and [SELECT col FROM t [WHERE col = ?]].  Foreign keys
    are declared but not enforced (SQLite's default).

    Limits of the model: column names are compared as written; a value is
    stored in the storage class it is bound with (SQLite would convert,
    say, an integer bound to a [TEXT] column); a [SELECT] without
    [ORDER BY] produces the rows in rowid order (SQLite may read a
    [UNIQUE] index instead where the index holds every selected column
    and is narrower than the table, as for the names of the industry
    table, and then answers in the order of that index); rowids stay far
    from the 64-bit limit. *)

Module Sqlite.

Import Float.

Inductive cell : Type :=
| Null
| Int (n : Z)
| Real (x : float)
| Text (s : string).

Inductive affinity : Type := INTEGER | REAL | TEXT.

Record column : Type := mk_column {
  col_name : string;
  col_type : affinity;
  primary_key : bool;
  autoincrement : bool;
  unique : bool;
  not_null : bool
}.

(** A table: its columns, its rows in rowid order (one cell per column)
    and, for [AUTOINCREMENT], the largest rowid ever used
    ([sqlite_sequence]). *)
Record table : Type := mk_table {
  schema : list column;
  rows : list (list cell);
  sequence : Z
}.

Definition database : Type := list (string * table).

Fixpoint find_table (name : string) (db : database) : option table :=
  match db with
  | [] => None
  | (n, t) :: db' => if String.eqb n name then Some t else find_table name db'
  end.

Fixpoint set_table (name : string) (t : table) (db : database) : database :=
  match db with
  | [] => [(name, t)]
  | (n, t') :: db' =>
      if String.eqb n name then (n, t) :: db' else (n, t') :: set_table name t db'
  end.

(** Position of a column name in a list of names. *)
Fixpoint position (name : string) (names : list string) : option nat :=
  match names with
  | [] => None
  | n :: names' =>
      if String.eqb n name then Some O
      else match position name names' with
           | Some i => Some (S i)
           | None => None
           end
  end.

Definition column_names (t : table) : list string := map col_name (schema t).

(** The cell of a row in a named column. *)
Definition field (t : table) (name : string) (row : list cell) : cell :=
  match position name (column_names t) with
  | Some i => nth i row Null
  | None => Null
  end.

(** [a = b] in SQL, as a condition: never true for a NULL. *)
Definition cell_eqb (a b : cell) : bool :=
  match a, b with
  | Int m, Int n => m =? n
  | Real x, Real y => SFeqb x y
  | Int n, Real x | Real x, Int n => Value.float_eq_int x n
  | Text s, Text t => String.eqb s t
  | _, _ => false
  end.

Definition rowid_of (t : table) (row : list cell) : Z :=
  match find (fun '(c, _) => primary_key c) (combine (schema t) row) with
  | Some (_, Int n) => n
  | _ => 0
  end.

Definition max_rowid (t : table) : Z :=
  fold_right (fun row m => Z.max (rowid_of t row) m) 0 (rows t).

Definition is_autoincrement (t : table) : bool :=
  existsb (fun c => primary_key c && autoincrement c) (schema t).

(** The rowid given to a row that does not bring one. *)
Definition next_rowid (t : table) : Z :=
  (if is_autoincrement t then Z.max (sequence t) (max_rowid t) else max_rowid t) + 1.

(** The row that the statement describes: a bound value in the listed
    columns, NULL elsewhere. *)
Definition draft_row (t : table) (cols : list string) (params : list cell)
  : list cell :=
  map (fun c => match position (col_name c) cols with
                | Some i => nth i params Null
                | None => Null
                end) (schema t).

(** The draft with its rowid filled in; a primary key that is neither
    NULL nor an integer is a datatype mismatch. *)
Fixpoint assign_rowid (next : Z) (cs : list column) (row : list cell)
  : result (list cell) :=
  match cs, row with
  | c :: cs', x :: row' =>
      if primary_key c then
        match x with
        | Null => Ok (Int next :: row')
        | Int n => Ok (x :: row')
        | _ => Raise IntegrityError
        end
      else r <- assign_rowid next cs' row' ;; Ok (x :: r)
  | _, _ => Ok row
  end.

Definition violates_not_null (cs : list column) (row : list cell) : bool :=
  existsb (fun '(c, x) => not_null c && match x with Null => true | _ => false end)
          (combine cs row).

(** Does the stored row [old] stand in the way of [new]: same rowid, or
    the same value in a [UNIQUE] column? *)
Definition conflicts (t : table) (new old : list cell) : bool :=
  existsb (fun '(c, (x, y)) => (primary_key c || unique c) && cell_eqb x y)
          (combine (schema t) (combine new old)).

Fixpoint insert_sorted (t : table) (new : list cell) (rs : list (list cell))
  : list (list cell) :=
  match rs with
  | [] => [new]
  | r :: rs' =>
      if rowid_of t new <? rowid_of t r then new :: r :: rs'
      else r :: insert_sorted t new rs'
  end.

(** One execution of [INSERT OR REPLACE INTO t (cols) VALUES (?, ...)]:
    the rows in the way are deleted, then the new row is inserted. *)
Definition insert_or_replace (t : table) (cols : list string) (params : list cell)
  : result table :=
  new <- assign_rowid (next_rowid t) (schema t) (draft_row t cols params) ;;
  if violates_not_null (schema t) new then Raise IntegrityError
  else
    let kept := filter (fun old => negb (conflicts t new old)) (rows t) in
    Ok (mk_table (schema t) (insert_sorted t new kept)
                 (if is_autoincrement t then Z.max (sequence t) (rowid_of t new)
                  else sequence t)).

(** The two statement shapes that [db.py] builds:
    ["INSERT OR REPLACE INTO %s (%s) VALUES (%s?)"] with its table, column
    list and number of question marks, and ["SELECT %s FROM %s"], with
    ["WHERE %s=?"] or without. *)
Record insert_statement : Type := mk_insert {
  ins_table : string;
  ins_cols : list string;
  ins_marks : nat
}.

Record select_statement : Type := mk_select {
  sel_col : string;
  sel_table : string;
  sel_where : option string
}.

Definition known_column (t : table) (c : string) : bool :=
  match position c (column_names t) with
  | Some _ => true
  | None => false
  end.

(** Compiling an insert: the table and the columns must exist, at least
    one column must be listed (an empty list is a syntax error) and there
    must be one value per column. *)
Definition prepare_insert (db : database) (st : insert_statement) : result table :=
  match ins_cols st, find_table (ins_table st) db with
  | _ :: _, Some t =>
      if forallb (known_column t) (ins_cols st)
         && Nat.eqb (ins_marks st) (List.length (ins_cols st))
      then Ok t else Raise OperationalError
  | _, _ => Raise OperationalError
  end.

(** Compiling a select: the table and the columns must exist. *)
Definition prepare_select (db : database) (st : select_statement) : result table :=
  match find_table (sel_table st) db with
  | Some t =>
      if known_column t (sel_col st)
         && match sel_where st with Some w => known_column t w | None => true end
      then Ok t else Raise OperationalError
  | None => Raise OperationalError
  end.

(** Binding a Python value to a parameter. *)
Definition bind_value (v : Value.val) : result cell :=
  match v with
  | Value.VNone => Ok Null
  | Value.VInt n =>
      if (- 2 ^ 63 <=? n) && (n <? 2 ^ 63) then Ok (Int n) else Raise OverflowError
  | Value.VFloat x => Ok (Real x)
  | Value.VStr s => Ok (Text s)
  | _ => Raise InterfaceError
  end.

(** A parameter tuple for a statement with [marks] question marks. *)
Definition bind_all (marks : nat) (params : list Value.val) : result (list cell) :=
  if Nat.eqb (List.length params) marks then mapM bind_value params
  else Raise ProgrammingError.

(** A cell as the cursor returns it ([text_factory = str]). *)
Definition value_of_cell (c : cell) : Value.val :=
  match c with
  | Null => Value.VNone
  | Int n => Value.VInt n
  | Real x => Value.VFloat x
  | Text s => Value.VStr s
  end.

(** The rows of a [SELECT], each a one-element tuple. *)
Definition select (t : table) (col : string) (cond : option (string * cell))
  : list Value.val :=
  map (fun row => Value.VTuple [value_of_cell (field t col row)])
      (filter (fun row => match cond with
                          | Some (w, x) => cell_eqb (field t w row) x
                          | None => true
                          end) (rows t)).

(** A [SELECT] that lists several columns:
    ["SELECT %s FROM %s WHERE %s=?"] with a comma-separated column
    list. *)
Record select_columns_statement : Type := mk_select_columns {
  selc_cols : list string;
  selc_table : string;
  selc_where : option string
}.

(** Compiling it: the table and all the columns must exist, and at least
    one column must be listed. *)
Definition prepare_select_columns (db : database) (st : select_columns_statement)
  : result table :=
  match selc_cols st, find_table (selc_table st) db with
  | _ :: _, Some t =>
      if forallb (known_column t) (selc_cols st)
         && match selc_where st with Some w => known_column t w | None => true end
      then Ok t else Raise OperationalError
  | _, _ => Raise OperationalError
  end.

(** Its rows, each a tuple with one element per listed column. *)
Definition select_columns (t : table) (cols : list string)
    (cond : option (string * cell)) : list Value.val :=
  map (fun row => Value.VTuple (map (fun c => value_of_cell (field t c row)) cols))
      (filter (fun row => match cond with
                          | Some (w, x) => cell_eqb (field t w row) x
                          | None => true
                          end) (rows t)).

End Sqlite.

(** ** [pytradelab/db.py]: class [Database] *)

Module Db.

Import Value Sqlite.

(** A method of [Database] runs on the connection's view of the tables
    and may raise.  The view after an exception is kept: [sqlite3] leaves
    the rows written before the failure in the open transaction.
    [commit] only makes the view durable and has no counterpart here. *)
Definition M (A : Type) : Type := database -> result A * database.

Definition ret {A : Type} (a : A) : M A := fun db => (Ok a, db).

Definition lift {A : Type} (r : result A) : M A := fun db => (r, db).

Definition bindM {A B : Type} (m : M A) (k : A -> M B) : M B :=
  fun db =>
    match m db with
    | (Ok a, db') => k a db'
    | (Raise e, db') => (Raise e, db')
    end.

Notation "x <~ m ;; k" := (bindM m (fun x => k))
  (at level 61, m at next level, right associativity).
Notation "' pat <~ m ;; k" := (bindM m (fun x => match x with pat => k end))
  (at level 61, pat pattern, m at next level, right associativity).

Fixpoint mapM_M {A B : Type} (f : A -> M B) (l : list A) : M (list B) :=
  match l with
  | [] => ret []
  | x :: l' => y <~ f x ;; ys <~ mapM_M f l' ;; ret (y :: ys)
  end.

(** [for d in v: body(d)] where the body may change [d] in place: [v]
    afterwards.  The elements of a list or tuple are objects that the body
    can change.  The keys of a dict and the characters of a string are
    immutable, so there the body can only leave them alone or raise. *)
Definition for_each (v : val) (body : val -> M val) : M val :=
  match v with
  | VList l => l' <~ mapM_M body l ;; ret (VList l')
  | VTuple l => l' <~ mapM_M body l ;; ret (VTuple l')
  | _ => l <~ lift (iterate v) ;; _ <~ mapM_M body l ;; ret v
  end.

(** *** The schema ([__init__]) *)

Definition col (name : string) (ty : affinity) : column :=
  mk_column name ty false false false false.

Definition _sector_columns : list column :=
  [ mk_column "sector_id" INTEGER true true false false;
    mk_column "name" TEXT false false true true ].

Definition _industry_columns : list column :=
  [ mk_column "industry_id" INTEGER true true false false;
    mk_column "name" TEXT false false true true;
    col "sector_id" INTEGER ].

Definition _symbol_columns : list column :=
  [ mk_column "symbol_id" INTEGER true true false false;
    mk_column "symbol" TEXT false false true true;
    col "name" TEXT;
    col "industry_id" INTEGER;
    col "exchange" TEXT;
    col "ipo_date" TEXT;
    col "newest_date" TEXT ].

Definition _stats_columns : list column :=
  [ mk_column "symbol_id" INTEGER true false false false;
    col "last_trade_datetime" TEXT;
    col "last_trade_price" REAL;
    col "last_trade_volume" INTEGER;
    col "year_high" REAL;
    col "year_low" REAL;
    col "ma_50" REAL;
    col "ma_200" REAL;
    col "market_cap" REAL;
    col "average_daily_volume" REAL;
    col "dividend_pay_date" TEXT;
    col "ex_dividend_date" TEXT;
    col "dividend_share" REAL;
    col "dividend_yield" REAL;
    col "book_value" REAL;
    col "ebitda" REAL;
    col "earnings_per_share" REAL;
    col "peg_ratio" REAL;
    col "pe_ratio" REAL;
    col "price_per_book" REAL;
    col "price_per_sales" REAL;
    col "short_ratio" REAL ].

Definition __create_table (column_defs : list column) : table :=
  mk_table column_defs [] 0.

(** The store right after [_create_tables]. *)
Definition _create_tables : database :=
  [ ("sector", __create_table _sector_columns);
    ("industry", __create_table _industry_columns);
    ("symbol", __create_table _symbol_columns);
    ("stats", __create_table _stats_columns) ].

(** [_connect(db_file_path)], on an object whose column definitions are
    assigned ([columns = true]) or not yet.  A file that exists is opened
    as it is.  On a new path [sqlite3.connect] creates the file, and
    [_create_tables] then reads [self._sector_columns]: an
    [AttributeError] while the attribute is missing, with the new file
    left without tables. *)
Definition _connect (columns : bool) (file : option database)
  : result unit * database :=
  match file with
  | Some db => (Ok tt, db)
  | None => if columns then (Ok tt, _create_tables)
            else (Raise AttributeError, [])
  end.

(** [Database(db_file_path)]: [__init__] calls [_connect] first and
    assigns the column definitions after it. *)
Definition __init__ (file : option database) : result unit * database :=
  _connect false file.

(** *** Reading *)

(** [_select_rows(sql, params)]; [params] is the parameter tuple, empty
    when the argument is left out. *)
Definition _select_rows (sql : select_statement) (params : list val) : M (list val) :=
  fun db =>
    (t <- prepare_select db sql ;;
     cells <- bind_all (match sel_where sql with Some _ => 1%nat | None => O end) params ;;
     Ok (select t (sel_col sql)
                (match sel_where sql, cells with
                 | Some w, x :: _ => Some (w, x)
                 | _, _ => None
                 end)),
     db).

Definition _select_row (sql : select_statement) (params : list val) : M val :=
  rows <~ _select_rows sql params ;;
  lift (index rows 0).

Definition _get_symbol_id (symbol : val) : M val :=
  row <~ _select_row (mk_select "symbol_id" "symbol" (Some "symbol")) [symbol] ;;
  lift (subscript row (VInt 0)).

Definition _get_sector_id (sector : val) : M val :=
  row <~ _select_row (mk_select "sector_id" "sector" (Some "name")) [sector] ;;
  lift (subscript row (VInt 0)).

Definition _get_industry_id (industry : val) : M val :=
  row <~ _select_row (mk_select "industry_id" "industry" (Some "name")) [industry] ;;
  lift (subscript row (VInt 0)).

Definition get_sectors : M val :=
  _select_row (mk_select "name" "sector" None) [].

Definition get_industries : M val :=
  _select_row (mk_select "name" "industry" None) [].

(** *** Writing *)

(** [cursor.executemany(sql, params_generator())]: the statement is
    compiled, then run once per parameter tuple that the generator
    produces; producing a tuple may itself raise. *)
Fixpoint execute_each (sql : insert_statement) (t : table)
    (gen : list (result (list val))) : result unit * table :=
  match gen with
  | [] => (Ok tt, t)
  | next :: gen' =>
      match (params <- next ;;
             cells <- bind_all (ins_marks sql) params ;;
             insert_or_replace t (ins_cols sql) cells) with
      | Ok t' => execute_each sql t' gen'
      | Raise e => (Raise e, t)
      end
  end.

Definition _execute_many (sql : insert_statement)
    (params_generator : list (result (list val))) : M unit :=
  fun db =>
    match prepare_insert db sql with
    | Raise e => (Raise e, db)
    | Ok t =>
        let '(r, t') := execute_each sql t params_generator in
        (r, set_table (ins_table sql) t' db)
    end.

(** [for key in remove_keys: d.pop(key)] *)
Fixpoint pop_keys (d : val) (remove_keys : list string) : result val :=
  match remove_keys with
  | [] => Ok d
  | key :: rest => '(_, d') <- pop d key ;; pop_keys d' rest
  end.

(** [__insert_or_update(table_name, list_of_dicts, remove_keys)];
    [remove_keys] is empty when the argument is left out. *)
Definition __insert_or_update (table_name : string) (list_of_dicts : val)
    (remove_keys : list string) : M unit :=
  list_of_dicts <~
    match remove_keys with
    | [] => ret list_of_dicts
    | _ => for_each list_of_dicts (fun d => lift (pop_keys d remove_keys))
    end ;;
  first <~ lift (subscript list_of_dicts (VInt 0)) ;;
  columns <~ lift (keys_of first) ;;
  names <~ lift (strings_of columns) ;;
  let sql := mk_insert table_name names (S (List.length columns - 1)) in
  ds <~ lift (iterate list_of_dicts) ;;
  _execute_many sql (map values_of ds).

Definition insert_or_update_sectors (sectors : val) : M unit :=
  let sectors := if isinstance_list sectors then sectors else VList [sectors] in
  ds <~ lift (l <- iterate sectors ;;
              Ok (map (fun s => VDict [(VStr "name", s)]) l)) ;;
  __insert_or_update "sector" (VList ds) [].

Definition insert_or_update_industries (industry_sectors : val) : M unit :=
  industry_sectors <~
    lift (if isinstance_dict industry_sectors then Ok industry_sectors
          else dict industry_sectors) ;;
  l <~ lift (iterate industry_sectors) ;;
  ds <~ mapM_M (fun x =>
                  '(i, s) <~ lift (unpack2 x) ;;
                  sector_id <~ _get_sector_id s ;;
                  ret (VDict [(VStr "name", i); (VStr "sector_id", sector_id)])) l ;;
  __insert_or_update "industry" (VList ds) [].

Definition insert_or_update_symbols (symbol_dicts : val) : M unit :=
  symbol_dicts <~
    lift (if isinstance_dict symbol_dicts then Ok symbol_dicts
          else dict symbol_dicts) ;;
  d <~ lift (subscript symbol_dicts (VInt 0)) ;;
  has_industry <~ lift (contains (VStr "industry") d) ;;
  symbol_dicts <~
    (if has_industry : bool then
       for_each symbol_dicts (fun d =>
         '(industry, d) <~ lift (pop d "industry") ;;
         industry_id <~ _get_industry_id industry ;;
         lift (setitem d "industry_id" industry_id))
     else ret symbol_dicts) ;;
  __insert_or_update "symbol" symbol_dicts ["sector"].

(** The inner loop of [insert_or_update_stats] over
    [['name', 'industry', 'exchange']]: the keys found move from [d] to
    [new_d]. *)
Fixpoint move_keys (ks : list string) (d : val) (new_d : items)
  : result (val * items) :=
  match ks with
  | [] => Ok (d, new_d)
  | key :: rest =>
      has <- contains (VStr key) d ;;
      if has : bool then
        '(x, d') <- pop d key ;;
        move_keys rest d' (store (VStr key) x new_d)
      else move_keys rest d new_d
  end.

(** One turn of the outer loop: [d] afterwards and the [new_d] appended
    to [symbol_dicts]. *)
Definition split_stats (d : val) : result (val * val) :=
  symbol <- subscript d (VStr "symbol") ;;
  '(d', new_d) <- move_keys ["name"; "industry"; "exchange"] d [(VStr "symbol", symbol)] ;;
  Ok (d', VDict new_d).

Definition insert_or_update_stats (stats : val) : M unit :=
  l <~ lift (iterate stats) ;;
  pairs <~ lift (mapM split_stats l) ;;
  let symbol_dicts := VList (map snd pairs) in
  let stats :=
    match stats with
    | VList _ => VList (map fst pairs)
    | VTuple _ => VTuple (map fst pairs)
    | _ => stats
    end in
  _ <~ insert_or_update_symbols symbol_dicts ;;
  __insert_or_update "stats" stats ["sector"; "ipo_date"; "newest_date"].

(** [_select_rows] and [_select_row] on a statement that lists several
    columns. *)
Definition _select_rows_columns (sql : select_columns_statement) (params : list val)
  : M (list val) :=
  fun db =>
    (t <- prepare_select_columns db sql ;;
     cells <- bind_all (match selc_where sql with Some _ => 1%nat | None => O end) params ;;
     Ok (select_columns t (selc_cols sql)
           (match selc_where sql, cells with
            | Some w, x :: _ => Some (w, x)
            | _, _ => None
            end)),
     db).

Definition _select_row_columns (sql : select_columns_statement) (params : list val)
  : M val :=
  rows <~ _select_rows_columns sql params ;;
  lift (index rows 0).

(** [get_instrument(symbol)].  The statement reads the stats columns from
    a table [instrument].  The dict at the end is built from
    [self._stats_columns[i]] for each position [i] of the row:
    [_stats_columns] is keyed by column name, so the first position
    already raises [KeyError]. *)
Definition get_instrument (symbol : val) : M val :=
  row <~ _select_row_columns
           (mk_select_columns (map col_name _stats_columns) "instrument" (Some "symbol"))
           [symbol] ;;
  lift (l <- iterate row ;;
        match l with
        | [] => Ok (VDict [])
        | _ :: _ => Raise KeyError
        end).

End Db.

(** * Properties *)

Import Datetime Float Value Sqlite.

(** ** Vocabulary of the statements *)

Module Examples.

Definition newline : string := String Str.nl EmptyString.

(** US Eastern standard time, the zone of the exchange whose session the
    provider hard-codes: five hours behind UTC. *)
Definition eastern (_ : Z) : Z := - 18000.

(** UTC itself. *)
Definition utc (_ : Z) : Z := 0.

(** ['%Y-%m-%d %H:%M:%S'] *)
Definition iso_format : format :=
  [DY; Lit "-"; Dm; Lit "-"; Dd; Lit " "; DH; Lit ":"; DM; Lit ":"; DS].

Definition file_name (path : string) : string := path.

(** [[{'symbol': 'ABC', 'name': 'Abc Inc', 'pe_ratio': 10.0}]] *)
Definition abc_stats : val :=
  VList [VDict [(VStr "symbol", VStr "ABC");
                (VStr "name", VStr "Abc Inc");
                (VStr "pe_ratio", VFloat (of_decimal false 10 0))]].

(** [[('Software', 'Technology')]] *)
Definition software : val :=
  VList [VTuple [VStr "Software"; VStr "Technology"]].

(** [['Technology']] *)
Definition technology : val := VList [VStr "Technology"].

(** [['Technology', 'Energy']] *)
Definition two_sectors : val := VList [VStr "Technology"; VStr "Energy"].

End Examples.

(** The rows of a table of the store, none when the table is missing. *)
Definition rows_of (name : string) (db : database) : list (list cell) :=
  match find_table name db with
  | Some t => rows t
  | None => []
  end.

(** The [name] column of the [sector] table, in row order. *)
Definition sector_names (db : database) : list cell :=
  match find_table "sector" db with
  | Some t => map (field t "name") (rows t)
  | None => []
  end.

(** Every key of a dict is hashable. *)
Definition keys_hashable (d : items) : bool := forallb hashable (keys d).

(** An argument that is a dict has hashable keys, as every dict that the
    interpreter builds has. *)
Definition well_formed (v : val) : bool :=
  match v with
  | VDict d => keys_hashable d
  | _ => true
  end.

(** The lines of a payload, as [process_downloaded_data] splits it. *)
Definition lines_of (data : string) : list string :=
  Str.split Str.nl (Str.strip data).

(** The first comma-separated field of a line. *)
Definition leading_field (line : string) : string :=
  hd EmptyString (Str.split Str.comma line).

(** A line that neither reports an error nor ends a header. *)
Definition plain_line (line : string) : bool :=
  negb (Str.startswith line "error") && negb (Str.startswith line "volume").

(** [cleans_to ... data rows]: the payload gets past the header loop
    without an error line and every remaining row converts; [rows] are the
    cleaned rows that reach the withholding step. *)
Definition cleans_to (utcoffset : Z -> Z) (fmt : format) (symbol data : string)
    (rows : list string) : Prop :=
  exists out cut,
    Minute.scan_header symbol (lines_of data) = (out, Ok (false, cut)) /\
    mapM (Minute.convert_row utcoffset fmt)
         (match cut with Some r => r | None => lines_of data end) = Ok rows.

(** Two well-formed rows, one minute apart, without a header. *)
Definition two_row_payload : string :=
  ("1000000000,1.0,2.0,0.5,1.5,100" ++ Examples.newline ++
   "1000000060,1.1,2.0,0.5,1.5,100" ++ Examples.newline)%string.

(** A well-formed row followed by one whose first field is not a number. *)
Definition bad_date_payload : string :=
  ("1000000000,1.0,2.0,0.5,1.5,100" ++ Examples.newline ++
   "yesterday,1.1,2.0,0.5,1.5,100" ++ Examples.newline)%string.

(** The payload with which the provider reports a failed request. *)
Definition error_payload : string :=
  ("error" ++ Examples.newline ++ "message:rate limited" ++ Examples.newline)%string.

(** What [row_to_bar] parses before it builds the bar: the date and the
    five numbers, in wire order (close, high, low, open, volume). *)
Definition parsed_fields (utcoffset : Z -> Z) (fmt : format) (row : string)
  : result (datetime * float * float * float * float * float) :=
  let row := Str.split Str.comma row in
  r0 <- Minute.getitem row 0 ;;
  date <- match (t <- py_int r0 ;; fromtimestamp utcoffset t) with
          | Raise ValueError => strptime r0 fmt
          | r => r
          end ;;
  close <- (x <- Minute.getitem row 1 ;; py_float x) ;;
  high <- (x <- Minute.getitem row 2 ;; py_float x) ;;
  low <- (x <- Minute.getitem row 3 ;; py_float x) ;;
  open_ <- (x <- Minute.getitem row 4 ;; py_float x) ;;
  volume <- (x <- Minute.getitem row 5 ;; py_float x) ;;
  Ok (date, close, high, low, open_, volume).

(** The bar of 2013-01-02 10:00:00 with open 1.5, high 2.0, low 0.5,
    close 1.0 and volume 100. *)
Definition morning_bar : Bar.Bar :=
  Bar.mk_Bar (mk_datetime 2013 1 2 10 0 0 0)
    (of_decimal false 15 (-1)) (of_decimal false 2 0) (of_decimal false 5 (-1))
    (of_decimal false 1 0) (of_decimal false 100 0) (of_decimal false 1 0).

(** The [sector] table as [_create_tables] makes it and the upserts keep
    it: the schema of [_sector_columns] and rows made of an integer id and
    a name. *)
Definition sector_row (r : list cell) : Prop :=
  exists id c, r = [Int id; c].

Definition sector_table (t : table) : Prop :=
  schema t = Db._sector_columns /\ Forall sector_row (rows t).

Definition sector_table_ok (db : database) : Prop :=
  exists t, find_table "sector" db = Some t /\ sector_table t.

(** The name column after one [INSERT OR REPLACE] of the name [s]: the
    rows with that name go, one row with it is appended. *)
Definition upsert_name (ns : list cell) (s : string) : list cell :=
  (filter (fun c => negb (cell_eqb (Text s) c)) ns ++ [Text s])%list.

Definition upsert_names (ns : list cell) (names : list string) : list cell :=
  fold_left upsert_name names ns.

(** How many cells of a column hold the text [s]. *)
Definition occurrences (s : string) (ns : list cell) : nat :=
  List.length (filter (cell_eqb (Text s)) ns).

(** No name of the list [names] equals the cell. *)
Definition not_among (names : list string) (c : cell) : bool :=
  forallb (fun s => negb (cell_eqb (Text s) c)) names.

(** The name cell of a sector row. *)
Definition name_of (r : list cell) : cell := nth 1 r Null.

(** Every key of a dict is a string. *)
Definition string_keys (d : items) : bool :=
  forallb (fun k => match k with VStr _ => true | _ => false end) (keys d).

(** A list of [(industry, sector)] name pairs, and the dict with the same
    items. *)
Definition pair_list (pairs : list (string * string)) : val :=
  VList (map (fun p => VTuple [VStr (fst p); VStr (snd p)]) pairs).

Definition pair_dict (pairs : list (string * string)) : val :=
  VDict (map (fun p => (VStr (fst p), VStr (snd p))) pairs).

(** The sector rows that carry none of the given names. *)
Definition other_rows (names : list string) (rs : list (list cell)) : list (list cell) :=
  filter (fun r => not_among names (name_of r)) rs.

(** The sector rows that carry the name [s]. *)
Definition rows_named (s : string) (rs : list (list cell)) : list (list cell) :=
  filter (fun r => cell_eqb (name_of r) (Text s)) rs.

(** Is there a table of that name in the store? *)
Definition has_table (name : string) (db : database) : bool :=
  match find_table name db with
  | Some _ => true
  | None => false
  end.

(** A method that neither creates nor drops a table. *)
Definition keeps_tables {A : Type} (m : Db.M A) : Prop :=
  forall db name, has_table name (snd (m db)) = has_table name db.

(** The payload of the specification's header example: a line of junk,
    the [volume] line that ends the header, one bar row. *)
Definition header_payload : string :=
  ("junk" ++ Examples.newline ++ "volume,date" ++ Examples.newline ++
   "1000000000,1.0,2.0,0.5,1.5,100" ++ Examples.newline)%string.

(** The two-character names of a list of [(industry, sector)] pairs are
    the ones the unpacking [i, s = name] accepts; here there is none. *)
Definition no_short_name (pairs : list (string * string)) : bool :=
  forallb (fun p => negb (Nat.eqb (String.length (fst p)) 2)) pairs.

(** Every key is a string of other than two characters. *)
Definition long_keys (ks : list val) : bool :=
  forallb (fun k => match k with
                    | VStr s => negb (Nat.eqb (String.length s) 2)
                    | _ => false
                    end) ks.

(** ** The store *)

(** C9.  Every public upsert needs a non-empty batch.  On an empty list
    [insert_or_update_sectors] and [insert_or_update_industries] raise
    [IndexError] at [list_of_dicts[0]], [insert_or_update_symbols] and
    [insert_or_update_stats] raise [KeyError] at [symbol_dicts[0]]; both
    are lookup errors of a subscript, and the store is left as it was. *)
Theorem upsert_of_empty_batch_raises (db : database) :
  Db.insert_or_update_sectors (VList []) db = (Raise IndexError, db) /\
  Db.insert_or_update_industries (VList []) db = (Raise IndexError, db) /\
  Db.insert_or_update_symbols (VList []) db = (Raise KeyError, db) /\
  Db.insert_or_update_stats (VList []) db = (Raise KeyError, db) /\
  is_LookupError IndexError = true /\ is_LookupError KeyError = true.
Proof. repeat split; reflexivity. Qed.

(** *** [insert_or_update_symbols] cannot succeed

    After its first statement [symbol_dicts] is a dict.  [symbol_dicts[0]]
    then needs a key equal to [0], and the two loops that follow iterate
    over the keys of the dict, calling [pop] on each: keys are hashable,
    and nothing hashable has a [pop]. *)

Lemma pop_hashable (k : val) (key : string) :
  hashable k = true -> pop k key = Raise AttributeError.
Proof. destruct k; simpl; intros H; try reflexivity; discriminate H. Qed.

Lemma store_keys_hashable (k v : val) (d : items) :
  hashable k = true -> keys_hashable d = true -> keys_hashable (store k v d) = true.
Proof.
  unfold keys_hashable, keys. intros Hk.
  induction d as [|[k' v'] d IH]; simpl; intros Hd.
  - rewrite Hk. reflexivity.
  - apply andb_prop in Hd as [H1 H2].
    destruct (key_eqb k' k); simpl; rewrite H1; simpl; auto.
Qed.

Lemma dict_of_pairs_keys_hashable (l : list val) :
  forall acc d, keys_hashable acc = true ->
    dict_of_pairs acc l = Ok d -> keys_hashable d = true.
Proof.
  induction l as [|x l IH]; simpl; intros acc d Hacc H.
  - inversion H; subst; assumption.
  - destruct (unpack2 x) as [[k v]|e]; try discriminate.
    destruct (hashable k) eqn:Hk; try discriminate.
    eapply IH; [|exact H]. apply store_keys_hashable; assumption.
Qed.

Lemma lookup_some_keys (k : val) (d : items) (x : val) :
  lookup k d = Some x -> exists k0 ks, keys d = k0 :: ks.
Proof. destruct d as [|[k0 v0] d]; simpl; [discriminate | eauto]. Qed.

(** A loop that pops from every key of a non-empty dict raises at the
    first key and leaves the store alone. *)
Lemma for_each_pop_raises (d : items) (k0 : val) (ks : list val)
    (body : val -> Db.M val) (db : database) :
  keys d = k0 :: ks ->
  (exists e, body k0 db = (Raise e, db)) ->
  exists e, Db.for_each (VDict d) body db = (Raise e, db).
Proof.
  intros Hk [e He]. exists e.
  unfold Db.for_each, Db.bindM, Db.lift. simpl. rewrite Hk. simpl.
  unfold Db.bindM. rewrite He. reflexivity.
Qed.

Lemma insert_or_update_symbols_raises (symbol_dicts : val) (db : database) :
  well_formed symbol_dicts = true ->
  exists e, Db.insert_or_update_symbols symbol_dicts db = (Raise e, db).
Proof.
  intros Hwf. unfold Db.insert_or_update_symbols.
  unfold Db.bindM at 1. unfold Db.lift at 1.
  assert (Hd : forall r, r = (if isinstance_dict symbol_dicts then Ok symbol_dicts
                              else dict symbol_dicts) ->
          match r with Ok v => exists d, v = VDict d /\ keys_hashable d = true
                     | Raise _ => True end).
  { intros r ->. destruct symbol_dicts as [| | | | | |d0]; simpl; try exact I;
      try (match goal with
           | |- context [dict_of_pairs [] ?l] =>
               destruct (dict_of_pairs [] l) as [d'|e] eqn:Hd; simpl; [|exact I];
               exists d'; split; [reflexivity|];
               eapply dict_of_pairs_keys_hashable; [|exact Hd]; reflexivity
           end).
    exists d0. split; [reflexivity | exact Hwf]. }
  specialize (Hd _ eq_refl).
  destruct (if isinstance_dict symbol_dicts then Ok symbol_dicts else dict symbol_dicts)
    as [v|e]; [|eauto].
  destruct Hd as [d [-> Hh]].
  unfold Db.bindM at 1. unfold Db.lift at 1. simpl subscript.
  destruct (lookup (VInt 0) d) as [x|] eqn:Hl; [|eauto].
  destruct (lookup_some_keys _ _ _ Hl) as [k0 [ks Hk]].
  assert (Hk0 : hashable k0 = true).
  { unfold keys_hashable in Hh. rewrite Hk in Hh. simpl in Hh.
    apply andb_prop in Hh as [H _]. exact H. }
  unfold Db.bindM at 1. unfold Db.lift at 1.
  destruct (contains (VStr "industry") x) as [[|]|e]; [| |eauto].
  - unfold Db.bindM at 1.
    destruct (for_each_pop_raises d k0 ks
                (fun d0 => Db.bindM (Db.lift (pop d0 "industry"))
                   (fun x0 => let '(industry, d1) := x0 in
                      Db.bindM (Db._get_industry_id industry)
                        (fun industry_id => Db.lift (setitem d1 "industry_id" industry_id))))
                db Hk) as [e He].
    { exists AttributeError. unfold Db.bindM, Db.lift.
      rewrite (pop_hashable _ _ Hk0). reflexivity. }
    rewrite He. eauto.
  - unfold Db.bindM at 1. unfold Db.ret at 1.
    unfold Db.__insert_or_update. unfold Db.bindM at 1.
    destruct (for_each_pop_raises d k0 ks
                (fun d0 => Db.lift (Db.pop_keys d0 ["sector"])) db Hk) as [e He].
    { exists AttributeError. unfold Db.lift. simpl.
      rewrite (pop_hashable _ _ Hk0). reflexivity. }
    rewrite He. eauto.
Qed.

(** So [insert_or_update_stats], which calls it on a list it has just
    built, raises on every argument without touching the store. *)
Lemma insert_or_update_stats_raises (stats : val) (db : database) :
  exists e, Db.insert_or_update_stats stats db = (Raise e, db).
Proof.
  unfold Db.insert_or_update_stats.
  unfold Db.bindM at 1. unfold Db.lift at 1.
  destruct (iterate stats) as [l|e]; [|eauto].
  unfold Db.bindM at 1. unfold Db.lift at 1.
  destruct (mapM Db.split_stats l) as [pairs|e]; [|eauto].
  unfold Db.bindM at 1.
  destruct (insert_or_update_symbols_raises (VList (map snd pairs)) db eq_refl) as [e He].
  rewrite He. eauto.
Qed.

(** C2.  [insert_or_update_stats] on
    [[{'symbol': 'ABC', 'name': 'Abc Inc', 'pe_ratio': 10.0}]] writes
    neither a symbol row nor a stats row: the symbol dicts it has split
    off are turned into one dict by [dict(symbol_dicts)], and
    [symbol_dicts[0]] raises [KeyError] before any statement is run. *)
Theorem upsert_stats_abc_raises_before_writing (db : database) :
  Db.insert_or_update_stats Examples.abc_stats db = (Raise KeyError, db) /\
  rows_of "symbol" (snd (Db.insert_or_update_stats Examples.abc_stats Db._create_tables)) = [] /\
  rows_of "stats" (snd (Db.insert_or_update_stats Examples.abc_stats Db._create_tables)) = [].
Proof. repeat split; reflexivity. Qed.

(** A [get_sectors] that returns hands back one row: a tuple holding one
    name. *)
Lemma get_sectors_single_row (db db' : database) (v : val) :
  Db.get_sectors db = (Ok v, db') -> exists x, v = VTuple [x].
Proof.
  unfold Db.get_sectors, Db._select_row, Db._select_rows, Db.bindM, Db.lift.
  destruct (prepare_select db (mk_select "name" "sector" None)) as [t|e]; simpl;
    [|discriminate].
  unfold select.
  destruct (filter (fun _ => true) (rows t)) as [|r rs]; simpl.
  - discriminate.
  - intros H. inversion H. eauto.
Qed.

(** C3.  With the two sectors "Technology" and "Energy" stored,
    [get_sectors] returns the single row [('Technology',)] and not the
    [name] column; on an empty table it raises [IndexError].  It calls
    [_select_row], which keeps the first row of [_select_rows]. *)
Theorem get_sectors_returns_first_row_only :
  let db := snd (Db.insert_or_update_sectors Examples.two_sectors Db._create_tables) in
  sector_names db = [Text "Technology"; Text "Energy"] /\
  Db.get_sectors db = (Ok (VTuple [VStr "Technology"]), db) /\
  Db._select_rows (mk_select "name" "sector" None) [] db =
    (Ok [VTuple [VStr "Technology"]; VTuple [VStr "Energy"]], db) /\
  Db.get_sectors Db._create_tables = (Raise IndexError, Db._create_tables) /\
  Db.get_industries Db._create_tables = (Raise IndexError, Db._create_tables).
Proof. repeat split; reflexivity. Qed.

(** The loop header [for i, s in industry_sectors] unpacks the keys of the
    dict.  With a key that is itself a pair the method does write a row. *)
Example upsert_industries_pair_key :
  let db1 := snd (Db.insert_or_update_sectors Examples.technology Db._create_tables) in
  let arg := VDict [(VTuple [VStr "Software"; VStr "Technology"], VNone)] in
  fst (Db.insert_or_update_industries arg db1) = Ok tt /\
  rows_of "industry" (snd (Db.insert_or_update_industries arg db1)) =
    [[Int 1; Text "Software"; Int 1]].
Proof. split; reflexivity. Qed.

(** C6.  [insert_or_update_industries([('Software', 'Technology')])]
    raises [ValueError] whether or not the sector "Technology" exists: the
    loop unpacks the key ['Software'] itself into [i, s].  After
    [insert_or_update_sectors(['Technology'])] it still fails and no
    industry row is written. *)
Theorem upsert_industries_raises_with_and_without_sector :
  let db0 := Db._create_tables in
  let db1 := snd (Db.insert_or_update_sectors Examples.technology db0) in
  Db.insert_or_update_industries Examples.software db0 = (Raise ValueError, db0) /\
  sector_names db1 = [Text "Technology"] /\
  Db.insert_or_update_industries Examples.software db1 = (Raise ValueError, db1) /\
  rows_of "industry" db1 = [].
Proof. repeat split; reflexivity. Qed.

(** ** The minute-bar provider *)

#[local] Arguments Str.startswith : simpl never.

Lemma mapM_length {A B : Type} (f : A -> result B) (l : list A) :
  forall r, mapM f l = Ok r -> List.length r = List.length l.
Proof.
  induction l as [|x l IH]; simpl; intros r H.
  - inversion H. reflexivity.
  - destruct (f x) as [y|e]; simpl in H; [|discriminate].
    destruct (mapM f l) as [ys|e]; simpl in H; [|discriminate].
    inversion H. simpl. f_equal. apply IH. reflexivity.
Qed.

Lemma mapM_raises {A B : Type} (f : A -> result B) (l : list A) (x : A) :
  In x l -> is_ok (f x) = false -> exists e, mapM f l = Raise e.
Proof.
  induction l as [|y l IH]; simpl; intros Hin Hx; [contradiction|].
  destruct Hin as [->|Hin].
  - destruct (f x) as [b|e]; [discriminate|]. simpl. eauto.
  - destruct (f y) as [b|e]; simpl; [|eauto].
    destruct (IH Hin Hx) as [e He]. rewrite He. simpl. eauto.
Qed.

Lemma split_cons (sep : ascii) (s : string) :
  exists p ps, Str.split sep s = p :: ps.
Proof.
  induction s as [|c s [p [ps IH]]]; simpl.
  - eauto.
  - destruct (Ascii.eqb c sep); [eauto|]. rewrite IH. eauto.
Qed.

(** A row whose leading field is not an integer literal does not
    convert. *)
Lemma convert_row_needs_int (utcoffset : Z -> Z) (fmt : format) (row : string) :
  is_ok (py_int (leading_field row)) = false ->
  is_ok (Minute.convert_row utcoffset fmt row) = false.
Proof.
  unfold Minute.convert_row, leading_field.
  destruct (split_cons Str.comma row) as [p [ps ->]]. simpl.
  destruct (py_int p); simpl; [discriminate | reflexivity].
Qed.

(** The header loop leaves a payload of plain lines alone. *)
Lemma scan_header_plain (symbol : string) (rest : list string) :
  forallb plain_line rest = true ->
  Minute.scan_header symbol rest = ([], Ok (false, None)).
Proof.
  induction rest as [|row rest IH]; simpl; intros H; [reflexivity|].
  apply andb_prop in H as [Hrow Hrest].
  unfold plain_line in Hrow. apply andb_prop in Hrow as [He Hv].
  destruct (Str.startswith row "error"); [discriminate|].
  destruct (Str.startswith row "volume"); [discriminate|].
  apply IH, Hrest.
Qed.

Lemma removelast_snoc (rows : list string) :
  (1 <= List.length rows)%nat ->
  exists last, rows = (removelast rows ++ [last])%list.
Proof.
  intros H. destruct rows as [|r rows]; [simpl in H; lia|].
  exists (List.last (r :: rows) EmptyString).
  apply app_removelast_last. discriminate.
Qed.

(** The session is the open interval: 09:30:00 and 16:00:00 themselves
    are outside, the microsecond after 09:30:00 is inside. *)
Example in_session_bounds :
  Minute.in_session (mk_time 9 30 0 0) = false /\
  Minute.in_session (mk_time 9 30 0 1) = true /\
  Minute.in_session (mk_time 15 59 59 999999) = true /\
  Minute.in_session (mk_time 16 0 0 0) = false.
Proof. repeat split; reflexivity. Qed.

(** C8.  Once a symbol-day is cleaned to [rows], the generator yields all
    of them but the last when there are two or more and the time of day
    is strictly between 09:30 and 16:00; with exactly one row, or outside
    the session, it yields all of them. *)
Theorem live_window_withholds_last_row
    (utcoffset : Z -> Z) (fmt : format) (symbol_of : string -> string)
    (now : time) (data file_path : string) (rows : list string) :
  cleans_to utcoffset fmt (symbol_of file_path) data rows ->
  ((1 < List.length rows)%nat /\ Minute.in_session now = true ->
     exists kept last,
       rows = (kept ++ [last])%list /\
       snd (Minute.process_one utcoffset fmt symbol_of now data file_path)
         = Minute.Yield kept) /\
  (List.length rows = 1%nat \/ Minute.in_session now = false ->
     snd (Minute.process_one utcoffset fmt symbol_of now data file_path)
       = Minute.Yield rows).
Proof.
  intros [out [cut [Hscan Hconv]]].
  unfold lines_of in Hscan, Hconv.
  assert (Hrun : snd (Minute.process_one utcoffset fmt symbol_of now data file_path)
                 = Minute.Yield (Minute.withhold now rows)).
  { unfold Minute.process_one. rewrite Hscan, Hconv. reflexivity. }
  rewrite Hrun. unfold Minute.withhold. split.
  - intros [Hlen Hin]. rewrite Hin.
    apply Nat.ltb_lt in Hlen. rewrite Hlen. simpl.
    apply Nat.ltb_lt in Hlen.
    destruct (removelast_snoc rows) as [last Hlast]; [lia|].
    exists (removelast rows), last. split; [exact Hlast | reflexivity].
  - intros [Hlen | Hout].
    + rewrite Hlen. reflexivity.
    + rewrite Hout. rewrite andb_false_r. reflexivity.
Qed.

(** C10.  When no line of the payload starts with [error] or [volume],
    no header is cut off: every line goes through the date conversion,
    the rows that are yielded come one from each line, and a line whose
    leading field is not an integer literal drops the symbol-day. *)
Theorem headerless_payload_converts_every_line
    (utcoffset : Z -> Z) (fmt : format) (symbol_of : string -> string)
    (now : time) (data file_path : string) :
  forallb plain_line (lines_of data) = true ->
  Minute.process_one utcoffset fmt symbol_of now data file_path =
    match mapM (Minute.convert_row utcoffset fmt) (lines_of data) with
    | Ok rows => ([], Minute.Yield (Minute.withhold now rows))
    | Raise e => ([Minute.DateError (symbol_of file_path) e], Minute.Skip)
    end /\
  (forall rows,
     mapM (Minute.convert_row utcoffset fmt) (lines_of data) = Ok rows ->
     List.length rows = List.length (lines_of data)) /\
  ((exists line, In line (lines_of data) /\
                 is_ok (py_int (leading_field line)) = false) ->
   snd (Minute.process_one utcoffset fmt symbol_of now data file_path)
     = Minute.Skip).
Proof.
  intros Hplain.
  assert (Hrun : Minute.process_one utcoffset fmt symbol_of now data file_path =
    match mapM (Minute.convert_row utcoffset fmt) (lines_of data) with
    | Ok rows => ([], Minute.Yield (Minute.withhold now rows))
    | Raise e => ([Minute.DateError (symbol_of file_path) e], Minute.Skip)
    end).
  { unfold Minute.process_one. fold (lines_of data).
    rewrite (scan_header_plain _ _ Hplain).
    destruct (mapM (Minute.convert_row utcoffset fmt) (lines_of data)); reflexivity. }
  split; [exact Hrun|]. split.
  - intros rows. apply mapM_length.
  - intros [line [Hin Hbad]]. rewrite Hrun.
    destruct (mapM_raises (Minute.convert_row utcoffset fmt) (lines_of data) line Hin
                (convert_row_needs_int utcoffset fmt line Hbad)) as [e He].
    rewrite He. reflexivity.
Qed.

(** C8 at work: two rows at 10:00 and at 17:00, US Eastern. *)
Lemma live_window_witness :
  let rows := ["2001-09-08 20:46:40,1.0,2.0,0.5,1.5,100";
               "2001-09-08 20:47:40,1.1,2.0,0.5,1.5,100"] in
  cleans_to Examples.eastern Examples.iso_format "AAPL.csv" two_row_payload rows /\
  (exists kept last,
     rows = (kept ++ [last])%list /\
     snd (Minute.process_one Examples.eastern Examples.iso_format Examples.file_name
            (mk_time 10 0 0 0) two_row_payload "AAPL.csv") = Minute.Yield kept) /\
  snd (Minute.process_one Examples.eastern Examples.iso_format Examples.file_name
         (mk_time 17 0 0 0) two_row_payload "AAPL.csv") = Minute.Yield rows.
Proof.
  intros rows.
  assert (H : cleans_to Examples.eastern Examples.iso_format
                (Examples.file_name "AAPL.csv") two_row_payload rows).
  { exists [], None. split; vm_compute; reflexivity. }
  split; [exact H|]. split.
  - apply (live_window_withholds_last_row Examples.eastern Examples.iso_format
             Examples.file_name (mk_time 10 0 0 0) two_row_payload "AAPL.csv" rows H).
    split; [simpl; lia | reflexivity].
  - apply (live_window_withholds_last_row Examples.eastern Examples.iso_format
             Examples.file_name (mk_time 17 0 0 0) two_row_payload "AAPL.csv" rows H).
    right. reflexivity.
Defined.

(** C10 at work: a payload without header whose second line has the
    leading field [yesterday]. *)
Lemma headerless_payload_witness :
  forallb plain_line (lines_of bad_date_payload) = true /\
  snd (Minute.process_one Examples.eastern Examples.iso_format Examples.file_name
         (mk_time 10 0 0 0) bad_date_payload "AAPL.csv") = Minute.Skip.
Proof.
  assert (H : forallb plain_line (lines_of bad_date_payload) = true)
    by (vm_compute; reflexivity).
  split; [exact H|].
  apply (headerless_payload_converts_every_line Examples.eastern Examples.iso_format
           Examples.file_name (mk_time 10 0 0 0) bad_date_payload "AAPL.csv" H).
  exists "yesterday,1.1,2.0,0.5,1.5,100". split.
  - vm_compute. right. left. reflexivity.
  - vm_compute. reflexivity.
Defined.

(** The header loop raises nothing but the [IndexError] of
    [data_rows[i+1]]. *)
Lemma scan_header_raises_IndexError (symbol : string) (rest : list string) :
  forall out e, Minute.scan_header symbol rest = (out, Raise e) -> e = IndexError.
Proof.
  induction rest as [|row rest IH]; simpl; intros out e H; [discriminate|].
  destruct (Str.startswith row "error").
  - destruct rest as [|next rest']; [inversion H; reflexivity|].
    destruct (Minute.scan_header symbol (next :: rest')) as [out' [[flag cut]|e']] eqn:Hs;
      simpl in H; [discriminate|].
    inversion H; subst. eapply IH. reflexivity.
  - destruct (Str.startswith row "volume"); [discriminate|].
    eapply IH, H.
Qed.

(** With an error line among the rows, the header loop ends in that
    [IndexError], or with the flag [error] set, or at a [volume] line
    that comes before the error line. *)
Lemma scan_header_error_line (symbol line : string) (rest : list string) :
  In line rest -> Str.startswith line "error" = true ->
  match Minute.scan_header symbol rest with
  | (_, Raise e) => e = IndexError
  | (_, Ok (true, _)) => True
  | (_, Ok (false, Some tail)) => In line tail
  | (_, Ok (false, None)) => False
  end.
Proof.
  intros Hin Hline.
  induction rest as [|row rest IH]; simpl in *; [contradiction|].
  destruct (Str.startswith row "error") eqn:Herr.
  - destruct rest as [|next rest']; [reflexivity|].
    pose proof (scan_header_raises_IndexError symbol (next :: rest')) as Hraise.
    destruct (Minute.scan_header symbol (next :: rest')) as [out' [[flag cut]|e']];
      simpl; [exact I | eapply Hraise; reflexivity].
  - destruct Hin as [->|Hin]; [rewrite Hline in Herr; discriminate|].
    destruct (Str.startswith row "volume"); [exact Hin | exact (IH Hin)].
Qed.

Lemma error_line_has_no_date (line : string) :
  Str.startswith line "error" = true ->
  is_ok (py_int (leading_field line)) = false.
Proof.
  unfold leading_field.
  destruct line as [|c line]; [discriminate|].
  change (Str.startswith (String c line) "error")
    with (Ascii.eqb "e" c && Str.startswith line "rror").
  destruct (Ascii.eqb_spec "e" c) as [<-|]; [|discriminate].
  intros _. simpl.
  destruct (split_cons Str.comma line) as [p [ps ->]]. reflexivity.
Qed.

(** A symbol-day with an error line is never yielded: it is skipped, or
    the [IndexError] leaves the generator. *)
Lemma error_line_never_yields
    (utcoffset : Z -> Z) (fmt : format) (symbol_of : string -> string)
    (now : time) (data file_path line : string) :
  In line (lines_of data) -> Str.startswith line "error" = true ->
  snd (Minute.process_one utcoffset fmt symbol_of now data file_path) = Minute.Skip \/
  snd (Minute.process_one utcoffset fmt symbol_of now data file_path)
    = Minute.Abort IndexError.
Proof.
  intros Hin Hline.
  pose proof (scan_header_error_line (symbol_of file_path) line _ Hin Hline) as H.
  unfold Minute.process_one. fold (lines_of data).
  destruct (Minute.scan_header (symbol_of file_path) (lines_of data))
    as [out [[[|] [tail|]]|e]]; simpl; auto.
  - destruct (mapM_raises (Minute.convert_row utcoffset fmt) tail line H
                (convert_row_needs_int utcoffset fmt line (error_line_has_no_date line Hline)))
      as [e He].
    rewrite He. left. reflexivity.
  - contradiction.
  - subst e. right. reflexivity.
Qed.

(** The failure payload of the provider is skipped and reported, and the
    next symbol-day is processed. *)
Example error_payload_is_skipped :
  Minute.process_downloaded_data Examples.eastern Examples.iso_format Examples.file_name
    (fun _ => mk_time 17 0 0 0)
    [(error_payload, "AAA.csv"); (two_row_payload, "BBB.csv")] =
  Minute.mk_run
    [(["2001-09-08 20:46:40,1.0,2.0,0.5,1.5,100";
       "2001-09-08 20:47:40,1.1,2.0,0.5,1.5,100"], "BBB.csv")]
    [Minute.DownloadError "AAA.csv" "rate limited"]
    None.
Proof. vm_compute. reflexivity. Qed.

(** C7.  A payload whose error line is its last line ends the generator:
    [data_rows[i+1]] raises [IndexError] inside the header loop, nothing is
    printed for the symbol-day and the symbol-days after it are never
    processed, although on its own the second one yields its rows. *)
Theorem error_on_last_line_aborts_generator :
  Minute.process_downloaded_data Examples.eastern Examples.iso_format Examples.file_name
    (fun _ => mk_time 17 0 0 0)
    [("error", "AAA.csv"); (two_row_payload, "BBB.csv")] =
  Minute.mk_run [] [] (Some IndexError) /\
  Minute.process_downloaded_data Examples.eastern Examples.iso_format Examples.file_name
    (fun _ => mk_time 17 0 0 0)
    [(two_row_payload, "BBB.csv")] =
  Minute.mk_run
    [(["2001-09-08 20:46:40,1.0,2.0,0.5,1.5,100";
       "2001-09-08 20:47:40,1.1,2.0,0.5,1.5,100"], "BBB.csv")]
    [] None.
Proof. split; vm_compute; reflexivity. Qed.

(** *** Decoding and encoding rows *)

(** [row_to_bar] is the parse followed by the constructor. *)
Lemma row_to_bar_parsed (utcoffset : Z -> Z) (fmt : format) (row : string) :
  Minute.row_to_bar utcoffset fmt row =
  ('(date, close, high, low, open_, volume) <- parsed_fields utcoffset fmt row ;;
   match Bar.init date open_ high low close volume close with
   | inr b => Ok (Minute.Decoded b)
   | inl e => Ok (Minute.Failure e)
   end).
Proof.
  unfold Minute.row_to_bar, parsed_fields.
  repeat match goal with
         | |- bind ?m _ = bind (bind ?m _) _ => destruct m; simpl; [|reflexivity]
         end.
  reflexivity.
Qed.

(** The constructor only lets bars through whose prices are ordered. *)
Lemma init_inr_ohlc_ok (date : datetime) (open_ high low close volume adj : float)
    (b : Bar.Bar) :
  Bar.init date open_ high low close volume adj = inr b ->
  b = Bar.mk_Bar date open_ high low close volume adj /\
  Bar.ohlc_ok open_ high low close = true.
Proof.
  unfold Bar.init, Bar.ohlc_ok. simpl.
  destruct (leb low open_); simpl; [|discriminate].
  destruct (leb low close); simpl; [|discriminate].
  destruct (leb low high); simpl; [|discriminate].
  destruct (geb high open_); simpl; [|discriminate].
  destruct (geb high close); simpl; [|discriminate].
  destruct (geb high low); simpl; [|discriminate].
  destruct (geb volume zero); simpl; [|discriminate].
  intros H. inversion H. split; reflexivity.
Qed.

(** And it refuses the others with a message. *)
Lemma init_inl_of_violation (date : datetime) (open_ high low close volume adj : float) :
  Bar.ohlc_ok open_ high low close = false ->
  exists msg, Bar.init date open_ high low close volume adj = inl msg.
Proof.
  unfold Bar.init, Bar.ohlc_ok. simpl.
  destruct (leb low open_); simpl; [|eauto].
  destruct (leb low close); simpl; [|eauto].
  destruct (leb low high); simpl; [|eauto].
  destruct (geb high open_); simpl; [|eauto].
  destruct (geb high close); simpl; [|eauto].
  destruct (geb high low); simpl; [|eauto].
  discriminate.
Qed.

(** C4.  [row_to_bar] never returns a bar whose prices break
    [low <= open, close, high] or [high >= open, close, low]; when the
    fields of a row parse and break them, it returns the failure text of
    the constructor as a value. *)
Theorem row_to_bar_never_returns_invalid_bar
    (utcoffset : Z -> Z) (fmt : format) (row : string) :
  (forall b, Minute.row_to_bar utcoffset fmt row = Ok (Minute.Decoded b) ->
     Bar.ohlc_ok (Bar.get_open b) (Bar.get_high b) (Bar.get_low b) (Bar.get_close b)
       = true) /\
  (forall date close high low open_ volume,
     parsed_fields utcoffset fmt row = Ok (date, close, high, low, open_, volume) ->
     Bar.ohlc_ok open_ high low close = false ->
     exists msg, Minute.row_to_bar utcoffset fmt row = Ok (Minute.Failure msg)).
Proof.
  rewrite row_to_bar_parsed. split.
  - intros b H.
    destruct (parsed_fields utcoffset fmt row)
      as [[[[[[date close] high] low] open_] volume]|e]; simpl in H; [|discriminate].
    destruct (Bar.init date open_ high low close volume close) as [msg|b'] eqn:Hinit;
      [discriminate|].
    inversion H; subst b'.
    destruct (init_inr_ohlc_ok _ _ _ _ _ _ _ _ Hinit) as [-> Hok]. exact Hok.
  - intros date close high low open_ volume -> Hbad. simpl.
    destruct (init_inl_of_violation date open_ high low close volume close Hbad)
      as [msg ->].
    exists msg. reflexivity.
Qed.

(** C4 at work: a row with low above open is answered with a failure
    text, a well-ordered one with a bar. *)
Lemma row_to_bar_witness :
  Bar.ohlc_ok (of_decimal false 15 (-1)) (of_decimal false 2 0)
              (of_decimal false 5 (-1)) (of_decimal false 1 0) = true /\
  exists msg,
    Minute.row_to_bar Examples.eastern Examples.iso_format
      "1357120800,1.00,2.00,3.00,1.50,100" = Ok (Minute.Failure msg).
Proof.
  split.
  - apply (proj1 (row_to_bar_never_returns_invalid_bar Examples.eastern
                    Examples.iso_format "1357120800,1.00,2.00,0.50,1.50,100")
             (Bar.mk_Bar (mk_datetime 2013 1 2 5 0 0 0)
                (of_decimal false 15 (-1)) (of_decimal false 2 0)
                (of_decimal false 5 (-1)) (of_decimal false 1 0)
                (of_decimal false 100 0) (of_decimal false 1 0))).
    vm_compute. reflexivity.
  - apply (proj2 (row_to_bar_never_returns_invalid_bar Examples.eastern
                    Examples.iso_format "1357120800,1.00,2.00,3.00,1.50,100")
             (mk_datetime 2013 1 2 5 0 0 0)
             (of_decimal false 1 0) (of_decimal false 2 0) (of_decimal false 3 0)
             (of_decimal false 15 (-1)) (of_decimal false 100 0)).
    + vm_compute. reflexivity.
    + vm_compute. reflexivity.
Defined.

(** In UTC the round trip gives the bar back. *)
Example round_trip_in_utc :
  (row <- Minute.bar_to_row morning_bar ;;
   Minute.row_to_bar Examples.utc Examples.iso_format row)
  = Ok (Minute.Decoded morning_bar).
Proof. vm_compute. reflexivity. Qed.

(** C1.  Five hours west of UTC the round trip moves the bar of 10:00 to
    05:00: [bar_to_row] reads the calendar fields as UTC
    ([calendar.timegm]) and [row_to_bar] turns the seconds into local time
    ([datetime.fromtimestamp]).  Prices and volume come back unchanged. *)
Theorem round_trip_shifts_date_time :
  Bar.ohlc_ok (Bar.get_open morning_bar) (Bar.get_high morning_bar)
              (Bar.get_low morning_bar) (Bar.get_close morning_bar) = true /\
  Minute.bar_to_row morning_bar = Ok "1357120800,1.00,2.00,0.50,1.50,100" /\
  Minute.row_to_bar Examples.eastern Examples.iso_format
    "1357120800,1.00,2.00,0.50,1.50,100" =
  Ok (Minute.Decoded
        (Bar.mk_Bar (mk_datetime 2013 1 2 5 0 0 0)
           (Bar.get_open morning_bar) (Bar.get_high morning_bar)
           (Bar.get_low morning_bar) (Bar.get_close morning_bar)
           (Bar.get_volume morning_bar) (Bar.get_adj_close morning_bar))) /\
  datetime_eqb (mk_datetime 2013 1 2 5 0 0 0) (Bar.get_date_time morning_bar) = false.
Proof. repeat split; vm_compute; reflexivity. Qed.

(** ** Upserting sectors twice *)

(** *** The name column as a list *)

Lemma filter_app_cell (p : cell -> bool) (a b : list cell) :
  filter p (a ++ b)%list = (filter p a ++ filter p b)%list.
Proof. apply filter_app. Qed.

Lemma filter_filter_cell (p q : cell -> bool) (l : list cell) :
  filter p (filter q l) = filter (fun c => q c && p c) l.
Proof.
  induction l as [|c l IH]; simpl; [reflexivity|].
  destruct (q c); simpl; [destruct (p c)|]; rewrite ?IH; reflexivity.
Qed.



Lemma not_among_member (names : list string) (s : string) :
  In s names -> not_among names (Text s) = false.
Proof.
  unfold not_among. induction names as [|s' names IH]; [contradiction|].
  cbn [forallb]. intros [-> | Hin].
  - simpl cell_eqb. rewrite String.eqb_refl. reflexivity.
  - rewrite (IH Hin). apply andb_false_r.
Qed.

Lemma filter_none (p : cell -> bool) (l : list cell) :
  (forall c, In c l -> p c = false) -> filter p l = [].
Proof.
  induction l as [|c l IH]; simpl; intros H; [reflexivity|].
  rewrite (H c (or_introl eq_refl)). apply IH. auto.
Qed.


Lemma cell_eqb_Text (s : string) (c : cell) :
  cell_eqb (Text s) c = true -> c = Text s.
Proof.
  destruct c; simpl; try discriminate.
  intros H. apply String.eqb_eq in H. congruence.
Qed.

Lemma occurrences_upsert_same (ns : list cell) (s : string) :
  occurrences s (upsert_name ns s) = 1%nat.
Proof.
  unfold occurrences, upsert_name.
  rewrite filter_app_cell, filter_filter_cell, length_app.
  cbn [filter]. change (cell_eqb (Text s) (Text s)) with (String.eqb s s).
  rewrite String.eqb_refl.
  rewrite filter_none; [reflexivity|].
  intros c _. destruct (cell_eqb (Text s) c); reflexivity.
Qed.

Lemma occurrences_upsert_other (ns : list cell) (s n : string) :
  s <> n -> occurrences n (upsert_name ns s) = occurrences n ns.
Proof.
  intros Hne. unfold occurrences, upsert_name.
  rewrite filter_app_cell, filter_filter_cell, length_app.
  cbn [filter]. change (cell_eqb (Text n) (Text s)) with (String.eqb n s).
  destruct (String.eqb_spec n s) as [->|_]; [contradiction Hne; reflexivity|].
  cbn [List.length]. rewrite Nat.add_0_r. f_equal.
  apply filter_ext. intros c.
  destruct (cell_eqb (Text n) c) eqn:Hn; [|apply andb_false_r].
  apply cell_eqb_Text in Hn. subst c.
  change (cell_eqb (Text s) (Text n)) with (String.eqb s n).
  destruct (String.eqb_spec s n) as [->|_]; [contradiction Hne|]; reflexivity.
Qed.

(** After a batch each of its names is in the column exactly once. *)
Lemma occurrences_upsert_names (names : list string) (n : string) :
  forall ns, In n names -> occurrences n (upsert_names ns names) = 1%nat.
Proof.
  unfold upsert_names.
  induction names as [|s names IH]; intros ns Hin; simpl in *; [contradiction|].
  destruct (in_dec string_dec n names) as [Hn | Hn]; [apply IH, Hn|].
  destruct Hin as [-> | Hin]; [|contradiction].
  clear IH. revert ns.
  assert (Hkeep : forall l ns, ~ In n l ->
            occurrences n (fold_left upsert_name l ns) = occurrences n ns).
  { induction l as [|s l IHl]; intros ns Hl; simpl; [reflexivity|].
    rewrite IHl by (intros H; apply Hl; right; exact H).
    apply occurrences_upsert_other. intros ->. apply Hl. left. reflexivity. }
  intros ns. rewrite Hkeep by exact Hn. apply occurrences_upsert_same.
Qed.

(** *** One [INSERT OR REPLACE] on the sector table *)

Lemma field_name_sector (t : table) (r : list cell) :
  schema t = Db._sector_columns -> field t "name" r = name_of r.
Proof. unfold field, column_names. intros ->. reflexivity. Qed.

Lemma rowid_of_sector (t : table) (id : Z) (c : cell) :
  schema t = Db._sector_columns -> rowid_of t [Int id; c] = id.
Proof. unfold rowid_of. intros ->. reflexivity. Qed.

Lemma max_rowid_bound (t : table) (id : Z) (c : cell) :
  schema t = Db._sector_columns ->
  In [Int id; c] (rows t) -> id <= max_rowid t.
Proof.
  intros Hs. unfold max_rowid.
  induction (rows t) as [|r rs IH]; simpl; [contradiction|].
  intros [-> | Hin].
  - rewrite (rowid_of_sector t id c Hs). lia.
  - specialize (IH Hin). lia.
Qed.

Lemma insert_sorted_last (t : table) (new : list cell) (rs : list (list cell)) :
  Forall (fun r => rowid_of t r < rowid_of t new) rs ->
  insert_sorted t new rs = (rs ++ [new])%list.
Proof.
  induction 1 as [|r rs Hr _ IH]; simpl; [reflexivity|].
  destruct (Z.ltb_spec (rowid_of t new) (rowid_of t r)); [lia|].
  rewrite IH. reflexivity.
Qed.

Lemma conflicts_sector (t : table) (next id : Z) (s : string) (c : cell) :
  schema t = Db._sector_columns -> id < next ->
  conflicts t [Int next; Text s] [Int id; c] = cell_eqb (Text s) c.
Proof.
  unfold conflicts. intros -> Hlt. cbn [Db._sector_columns combine existsb
    primary_key unique orb andb].
  change (cell_eqb (Int next) (Int id)) with (next =? id).
  destruct (Z.eqb_spec next id); [lia|].
  cbn [orb]. apply orb_false_r.
Qed.

Lemma next_rowid_above (t : table) (id : Z) (c : cell) :
  schema t = Db._sector_columns ->
  In [Int id; c] (rows t) -> id < next_rowid t.
Proof.
  intros Hs Hin. pose proof (max_rowid_bound t id c Hs Hin) as Hb.
  unfold next_rowid. destruct (is_autoincrement t); lia.
Qed.

(** Among sector rows with smaller ids, the rows in the way of a new
    name are the rows with that name. *)
Lemma kept_names (t : table) (next : Z) (s : string) (rs : list (list cell)) :
  schema t = Db._sector_columns ->
  Forall sector_row rs ->
  (forall id c, In [Int id; c] rs -> id < next) ->
  map name_of (filter (fun old => negb (conflicts t [Int next; Text s] old)) rs) =
  filter (fun c => negb (cell_eqb (Text s) c)) (map name_of rs).
Proof.
  intros Hs Hrows. induction Hrows as [|r rs [id [c ->]] _ IH]; intros Hlt;
    [reflexivity|].
  cbn [filter map].
  rewrite (conflicts_sector t next id s c Hs) by (apply (Hlt id c); left; reflexivity).
  change (name_of [Int id; c]) with c.
  destruct (cell_eqb (Text s) c); cbn [negb map];
    rewrite IH by (intros id' c' H; apply (Hlt id' c'); right; exact H); reflexivity.
Qed.

Lemma kept_rows_below (t : table) (next : Z) (s : string) (rs : list (list cell)) :
  schema t = Db._sector_columns ->
  Forall sector_row rs ->
  (forall id c, In [Int id; c] rs -> id < next) ->
  let kept := filter (fun old => negb (conflicts t [Int next; Text s] old)) rs in
  Forall sector_row kept /\
  Forall (fun r => rowid_of t r < rowid_of t [Int next; Text s]) kept.
Proof.
  intros Hs Hrows Hlt kept. subst kept.
  rewrite (rowid_of_sector t next (Text s) Hs).
  split; apply Forall_forall; intros r Hr; apply filter_In in Hr as [Hr _].
  - rewrite Forall_forall in Hrows. apply Hrows, Hr.
  - rewrite Forall_forall in Hrows. destruct (Hrows r Hr) as [id [c ->]].
    rewrite (rowid_of_sector t id c Hs). apply (Hlt id c Hr).
Qed.

(** One upsert of a name on a sector table: it succeeds, the table stays
    a sector table and its name column is [upsert_name] of the old one. *)
Lemma insert_or_replace_sector (t : table) (s : string) :
  sector_table t ->
  exists t',
    insert_or_replace t ["name"] [Text s] = Ok t' /\
    sector_table t' /\
    map name_of (rows t') = upsert_name (map name_of (rows t)) s.
Proof.
  intros [Hs Hrows].
  pose (next := next_rowid t).
  pose (new := [Int next; Text s]).
  pose (kept := filter (fun old => negb (conflicts t new old)) (rows t)).
  assert (Hlt : forall id c, In [Int id; c] (rows t) -> id < next)
    by (intros id c Hin; exact (next_rowid_above t id c Hs Hin)).
  destruct (kept_rows_below t next s (rows t) Hs Hrows Hlt) as [Hshape Hbelow].
  exists (mk_table (schema t) (kept ++ [new])%list
            (if is_autoincrement t then Z.max (sequence t) (rowid_of t new)
             else sequence t)).
  split; [|split].
  - unfold insert_or_replace, draft_row. rewrite Hs.
    cbn [Db._sector_columns map col_name position String.eqb Ascii.eqb Bool.eqb
         nth assign_rowid primary_key bind violates_not_null combine existsb
         not_null andb orb].
    fold next. fold new. rewrite <- Hs. fold kept.
    rewrite (insert_sorted_last t new kept Hbelow). reflexivity.
  - split; [exact Hs|]. cbn [rows].
    apply Forall_app. split; [exact Hshape|].
    constructor; [|constructor]. exists next, (Text s). reflexivity.
  - cbn [rows]. rewrite map_app. unfold upsert_name. f_equal.
    apply (kept_names t next s (rows t) Hs Hrows Hlt).
Qed.

(** *** The batch and the method *)

Lemma find_set_table (name : string) (t t' : table) (db : database) :
  find_table name db = Some t -> find_table name (set_table name t' db) = Some t'.
Proof.
  induction db as [|[n t0] db IH]; simpl; [discriminate|].
  destruct (String.eqb n name) eqn:Hn; simpl; rewrite Hn; auto.
Qed.

Lemma execute_each_sector (names : list string) :
  forall t,
    sector_table t ->
    exists t',
      Db.execute_each (mk_insert "sector" ["name"] 1) t
        (map values_of (map (fun s => VDict [(VStr "name", s)]) (map VStr names)))
        = (Ok tt, t') /\
      sector_table t' /\
      map name_of (rows t') = upsert_names (map name_of (rows t)) names.
Proof.
  induction names as [|s names IH]; intros t Ht.
  - exists t. repeat split; apply Ht.
  - destruct (insert_or_replace_sector t s Ht) as [t1 [Hins [Ht1 Hnames1]]].
    destruct (IH t1 Ht1) as [t' [Hrun [Ht' Hnames]]].
    exists t'. split; [|split; [exact Ht'|]].
    + cbn [map Db.execute_each values_of values snd bind bind_all List.length
           ins_marks ins_cols Nat.eqb mapM bind_value].
      rewrite Hins. exact Hrun.
    + rewrite Hnames, Hnames1. reflexivity.
Qed.

(** [insert_or_update_sectors] on a non-empty list of names: it returns,
    and the name column of the sector table is [upsert_names] of the old
    one. *)
Lemma insert_or_update_sectors_names (db : database) (names : list string) :
  sector_table_ok db -> names <> [] ->
  Db.insert_or_update_sectors (VList (map VStr names)) db
    = (Ok tt, snd (Db.insert_or_update_sectors (VList (map VStr names)) db)) /\
  sector_table_ok (snd (Db.insert_or_update_sectors (VList (map VStr names)) db)) /\
  sector_names (snd (Db.insert_or_update_sectors (VList (map VStr names)) db))
    = upsert_names (sector_names db) names.
Proof.
  intros [t [Hfind Ht]] Hne.
  destruct (execute_each_sector names t Ht) as [t' [Hrun [Ht' Hnames]]].
  assert (Hcall : Db.insert_or_update_sectors (VList (map VStr names)) db
                  = (Ok tt, set_table "sector" t' db)).
  { destruct names as [|s names]; [contradiction Hne; reflexivity|].
    unfold Db.insert_or_update_sectors, Db.__insert_or_update, Db._execute_many.
    cbn [isinstance_list iterate Db.lift Db.bindM Db.ret bind map].
    unfold subscript, index.
    cbn [List.length Z.of_nat Z.ltb Z.leb Z.compare orb Z.to_nat nth_error
         Db.lift Db.bindM bind keys_of keys map fst strings_of mapM iterate].
    unfold prepare_insert. cbn [ins_cols ins_table]. rewrite Hfind.
    destruct Ht as [Hs _]. unfold known_column, column_names. rewrite Hs.
    cbn [forallb Db._sector_columns map col_name position String.eqb Ascii.eqb
         Bool.eqb andb ins_marks List.length Nat.sub Nat.eqb ins_cols].
    cbn [map] in Hrun. rewrite Hrun. reflexivity. }
  rewrite Hcall. cbn [snd].
  assert (Hfind' := find_set_table "sector" t t' db Hfind).
  split; [reflexivity|]. split.
  - exists t'. split; assumption.
  - unfold sector_names. rewrite Hfind, Hfind'.
    rewrite (map_ext _ name_of (fun r => field_name_sector t' r (proj1 Ht'))).
    rewrite (map_ext _ name_of (fun r => field_name_sector t r (proj1 Ht))).
    exact Hnames.
Qed.




(** * Further properties of the store *)

Lemma lookup_int_string_keys (n : Z) (d : items) :
  string_keys d = true -> lookup (VInt n) d = None.
Proof.
  unfold string_keys, keys.
  induction d as [|[k v] d IH]; simpl; [reflexivity|].
  destruct k; try discriminate. simpl. exact IH.
Qed.

(** X1.  [insert_or_update_symbols] never returns: on every argument
    whose dict keys are hashable it raises and leaves the store as it
    was.  On the argument that its docstring describes, a dict keyed by
    symbol strings, the exception is the [KeyError] of
    [symbol_dicts[0]]. *)
Theorem insert_or_update_symbols_never_returns (symbol_dicts : val) (db : database) :
  well_formed symbol_dicts = true ->
  (exists e, Db.insert_or_update_symbols symbol_dicts db = (Raise e, db)) /\
  (forall d, symbol_dicts = VDict d -> string_keys d = true ->
     Db.insert_or_update_symbols symbol_dicts db = (Raise KeyError, db)).
Proof.
  intros Hwf. split.
  - apply insert_or_update_symbols_raises, Hwf.
  - intros d -> Hkeys.
    unfold Db.insert_or_update_symbols, Db.bindM, Db.lift. simpl.
    rewrite (lookup_int_string_keys 0 d Hkeys). reflexivity.
Qed.

(** X1 at work on [{'ABC': {'name': 'Abc Inc'}}]. *)
Lemma insert_or_update_symbols_witness :
  let arg := VDict [(VStr "ABC", VDict [(VStr "name", VStr "Abc Inc")])] in
  well_formed arg = true /\
  Db.insert_or_update_symbols arg Db._create_tables = (Raise KeyError, Db._create_tables).
Proof.
  intros arg.
  assert (Hwf : well_formed arg = true) by reflexivity.
  split; [exact Hwf|].
  apply (proj2 (insert_or_update_symbols_never_returns arg Db._create_tables Hwf)
               [(VStr "ABC", VDict [(VStr "name", VStr "Abc Inc")])]);
    reflexivity.
Defined.

(** *** [insert_or_update_industries] on name pairs *)

Lemma unpack2_string (s : string) :
  String.length s <> 2%nat -> unpack2 (VStr s) = Raise ValueError.
Proof.
  intros H. unfold unpack2. simpl.
  destruct s as [|a [|b [|c s]]]; simpl in *; try reflexivity.
  contradiction H. reflexivity.
Qed.

(** The body of the loop raises at a key that is a string of other than
    two characters, before anything is looked up. *)
Lemma industries_loop_raises (i0 : string) (ks : list val) (db : database) :
  String.length i0 <> 2%nat ->
  Db.mapM_M (fun x =>
      Db.bindM (Db.lift (unpack2 x))
        (fun x0 => let '(i, s) := x0 in
           Db.bindM (Db._get_sector_id s)
             (fun sector_id =>
                Db.ret (VDict [(VStr "name", i); (VStr "sector_id", sector_id)]))))
    (VStr i0 :: ks) db = (Raise ValueError, db).
Proof.
  intros H. simpl. unfold Db.bindM at 1. unfold Db.bindM at 1. unfold Db.lift.
  rewrite (unpack2_string i0 H). reflexivity.
Qed.

(** So the loop raises whichever key comes first, when no key unpacks. *)
Lemma industries_loop_raises_long (ks : list val) (db : database) :
  ks <> [] -> long_keys ks = true ->
  Db.mapM_M (fun x =>
      Db.bindM (Db.lift (unpack2 x))
        (fun x0 => let '(i, s) := x0 in
           Db.bindM (Db._get_sector_id s)
             (fun sector_id =>
                Db.ret (VDict [(VStr "name", i); (VStr "sector_id", sector_id)]))))
    ks db = (Raise ValueError, db).
Proof.
  intros Hne Hlong. destruct ks as [|k ks]; [contradiction Hne; reflexivity|].
  cbn [long_keys forallb] in Hlong. apply andb_prop in Hlong. destruct Hlong as [Hk _].
  destruct k as [| | |s| | |]; try discriminate Hk.
  apply industries_loop_raises.
  destruct (Nat.eqb_spec (String.length s) 2); [discriminate Hk | assumption].
Qed.

Lemma long_keys_store (k v : val) (d : items) :
  long_keys [k] = true -> long_keys (keys d) = true ->
  long_keys (keys (store k v d)) = true.
Proof.
  intros Hk. induction d as [|[k' v'] d IH]; intros Hd.
  - exact Hk.
  - cbn [store]. cbn [keys map fst long_keys forallb] in Hd.
    apply andb_prop in Hd. destruct Hd as [Hk' Hd].
    destruct (key_eqb k' k).
    + cbn [keys map fst long_keys forallb]. rewrite Hk'. exact Hd.
    + cbn [keys map fst long_keys forallb]. rewrite Hk'. exact (IH Hd).
Qed.

Lemma store_not_nil (k v : val) (d : items) : store k v d <> [].
Proof.
  destruct d as [|[k' v'] d]; cbn [store]; [discriminate|].
  destruct (key_eqb k' k); discriminate.
Qed.

(** [dict] of a list of name pairs has the names for keys. *)
Lemma dict_of_pairs_long (pairs : list (string * string)) :
  no_short_name pairs = true ->
  forall acc, long_keys (keys acc) = true ->
    exists d,
      dict_of_pairs acc (map (fun p => VTuple [VStr (fst p); VStr (snd p)]) pairs)
        = Ok d /\
      long_keys (keys d) = true /\
      (acc <> [] \/ pairs <> [] -> d <> []).
Proof.
  induction pairs as [|[i s] pairs IH]; intros Hp acc Hacc.
  - exists acc. split; [reflexivity|]. split; [exact Hacc|].
    intros [H|H]; [exact H | contradiction H; reflexivity].
  - cbn [no_short_name forallb] in Hp. apply andb_prop in Hp. destruct Hp as [Hi Hp].
    cbn [map fst snd dict_of_pairs unpack2 iterate bind hashable].
    destruct (IH Hp (store (VStr i) (VStr s) acc)) as [d [Hd [Hlong Hne]]].
    { apply long_keys_store; [|exact Hacc].
      cbn [long_keys forallb]. cbn [fst] in Hi. rewrite Hi. reflexivity. }
    exists d. split; [exact Hd|]. split; [exact Hlong|].
    intros _. apply Hne. left. apply store_not_nil.
Qed.

Lemma long_keys_pair_items (pairs : list (string * string)) :
  long_keys (keys (map (fun p => (VStr (fst p), VStr (snd p))) pairs))
  = no_short_name pairs.
Proof.
  induction pairs as [|p pairs IH]; [reflexivity|].
  cbn [map keys fst long_keys forallb no_short_name].
  f_equal. exact IH.
Qed.

Lemma no_short_name_perm (pairs items : list (string * string)) :
  Permutation items pairs -> no_short_name pairs = true ->
  no_short_name items = true.
Proof.
  unfold no_short_name. rewrite !forallb_forall. intros Hperm H p Hin.
  apply H. exact (Permutation_in p Hperm Hin).
Qed.

(** X3.  Given industry and sector names, none of the industry names
    exactly two characters long, [insert_or_update_industries] raises
    [ValueError] and writes nothing, for a list of pairs as for the dict
    that the docstring asks for, and in whichever order the dict hands
    out its items: the loop unpacks the key itself, and no key unpacks. *)
Theorem insert_or_update_industries_unpacks_keys
    (pairs : list (string * string)) (db : database) :
  pairs <> [] -> no_short_name pairs = true ->
  Db.insert_or_update_industries (pair_list pairs) db = (Raise ValueError, db) /\
  forall items, Permutation items pairs ->
    Db.insert_or_update_industries (pair_dict items) db = (Raise ValueError, db).
Proof.
  intros Hne Hlong. split.
  - unfold Db.insert_or_update_industries, pair_list.
    unfold Db.bindM at 1. unfold Db.lift at 1.
    cbn [isinstance_dict dict iterate bind].
    destruct (dict_of_pairs_long pairs Hlong [] eq_refl) as [d [-> [Hd Hnil]]].
    cbn [bind]. unfold Db.bindM at 1. unfold Db.lift at 1.
    cbn [iterate]. unfold Db.bindM at 1.
    rewrite (industries_loop_raises_long (keys d) db); [reflexivity | | exact Hd].
    intros Hk. apply (Hnil (or_intror Hne)).
    destruct d; [reflexivity | discriminate Hk].
  - intros items Hperm.
    unfold Db.insert_or_update_industries, pair_dict.
    unfold Db.bindM at 1. unfold Db.lift at 1.
    cbn [isinstance_dict]. unfold Db.bindM at 1. unfold Db.lift at 1.
    cbn [iterate]. unfold Db.bindM at 1.
    rewrite (industries_loop_raises_long _ db); [reflexivity | |].
    + intros Hk. apply Hne.
      destruct items; [|discriminate Hk].
      apply Permutation_nil. exact Hperm.
    + rewrite long_keys_pair_items. exact (no_short_name_perm pairs items Hperm Hlong).
Qed.

(** X3 at work on [[('Software', 'Technology'), ('Banks', 'Financial')]]
    with the sector "Technology" in the store, as a list and as the dict
    that lists the two items the other way round. *)
Lemma insert_or_update_industries_witness :
  let db := snd (Db.insert_or_update_sectors Examples.technology Db._create_tables) in
  let pairs := [("Software", "Technology"); ("Banks", "Financial")] in
  pairs <> [] /\ no_short_name pairs = true /\
  Db.insert_or_update_industries (pair_list pairs) db = (Raise ValueError, db) /\
  Db.insert_or_update_industries
    (pair_dict [("Banks", "Financial"); ("Software", "Technology")]) db
    = (Raise ValueError, db).
Proof.
  intros db pairs.
  assert (Hne : pairs <> []) by discriminate.
  assert (Hlong : no_short_name pairs = true) by reflexivity.
  split; [exact Hne|]. split; [exact Hlong|].
  destruct (insert_or_update_industries_unpacks_keys pairs db Hne Hlong) as [Hl Hd].
  split; [exact Hl|].
  apply Hd. apply perm_swap.
Defined.

(** *** Looking up a sector id *)

Lemma cell_eqb_Text_sym (s : string) (c : cell) :
  cell_eqb c (Text s) = cell_eqb (Text s) c.
Proof. destruct c; simpl; try reflexivity. apply String.eqb_sym. Qed.

Lemma occurrences_rows_named (s : string) (rs : list (list cell)) :
  occurrences s (map name_of rs) = List.length (rows_named s rs).
Proof.
  unfold occurrences, rows_named.
  induction rs as [|r rs IH]; [reflexivity|].
  cbn [map filter]. rewrite cell_eqb_Text_sym.
  destruct (cell_eqb (Text s) (name_of r)); cbn [List.length]; rewrite IH; reflexivity.
Qed.

Lemma sector_names_rows (db : database) (t : table) :
  find_table "sector" db = Some t -> sector_table t ->
  sector_names db = map name_of (rows t).
Proof.
  intros Hfind [Hs _]. unfold sector_names. rewrite Hfind.
  apply map_ext. intros r. apply field_name_sector, Hs.
Qed.

(** [_get_sector_id] answers from the first row with the name. *)
Lemma get_sector_id_eval (db : database) (t : table) (s : string) :
  find_table "sector" db = Some t -> sector_table t ->
  Db._get_sector_id (VStr s) db =
  match rows_named s (rows t) with
  | [] => (Raise IndexError, db)
  | r :: _ => (Ok (value_of_cell (nth 0 r Null)), db)
  end.
Proof.
  intros Hfind [Hs _].
  unfold Db._get_sector_id, Db._select_row, Db._select_rows, Db.bindM, Db.lift.
  unfold prepare_select. cbn [sel_table sel_col sel_where]. rewrite Hfind.
  unfold known_column, column_names. rewrite Hs.
  cbn [Db._sector_columns map col_name position String.eqb Ascii.eqb Bool.eqb
       andb bind bind_all List.length Nat.eqb mapM bind_value].
  unfold select, rows_named.
  rewrite (filter_ext _ (fun r => cell_eqb (name_of r) (Text s))
             (fun r => f_equal (fun c => cell_eqb c (Text s)) (field_name_sector t r Hs))).
  destruct (filter (fun r => cell_eqb (name_of r) (Text s)) (rows t)) as [|r rs];
    [reflexivity|].
  cbn [map]. unfold index. cbn [List.length].
  replace (field t "sector_id" r) with (nth 0 r Null)
    by (unfold field, column_names; rewrite Hs; reflexivity).
  destruct (Z.of_nat (S (List.length (map (fun row => VTuple [value_of_cell (field t "sector_id" row)]) rs)))) eqn:Hn;
    try lia; reflexivity.
Qed.

(** X4.  [_get_sector_id] of a name that the sector table does not hold
    raises the [IndexError] of [_select_row] and leaves the store as it
    was. *)
Theorem get_sector_id_of_missing_name (db : database) (s : string) :
  sector_table_ok db -> occurrences s (sector_names db) = 0%nat ->
  Db._get_sector_id (VStr s) db = (Raise IndexError, db).
Proof.
  intros [t [Hfind Ht]] Hocc.
  rewrite (sector_names_rows db t Hfind Ht), occurrences_rows_named in Hocc.
  rewrite (get_sector_id_eval db t s Hfind Ht).
  destruct (rows_named s (rows t)); [reflexivity | discriminate].
Qed.

(** X4 at work: the new store has no sector "Technology". *)
Lemma get_sector_id_missing_witness :
  sector_table_ok Db._create_tables /\
  Db._get_sector_id (VStr "Technology") Db._create_tables
    = (Raise IndexError, Db._create_tables).
Proof.
  assert (Hdb : sector_table_ok Db._create_tables).
  { exists (Db.__create_table Db._sector_columns).
    split; [reflexivity|]. split; [reflexivity | constructor]. }
  split; [exact Hdb|].
  apply (get_sector_id_of_missing_name Db._create_tables "Technology" Hdb).
  reflexivity.
Defined.

Lemma rows_named_sound (s : string) (rs : list (list cell)) (r : list cell) :
  Forall sector_row rs -> In r (rows_named s rs) ->
  exists id, r = [Int id; Text s] /\ In r rs.
Proof.
  intros Hrs Hin. apply filter_In in Hin as [Hin Hname].
  rewrite Forall_forall in Hrs. destruct (Hrs r Hin) as [id [c ->]].
  change (name_of [Int id; c]) with c in Hname.
  rewrite cell_eqb_Text_sym in Hname. apply cell_eqb_Text in Hname. subst c.
  exists id. split; [reflexivity | exact Hin].
Qed.

(** X5.  After [insert_or_update_sectors] with a list of names,
    [_get_sector_id] of each of them returns, and what it returns is the
    [sector_id] of a stored row with that name. *)
Theorem get_sector_id_after_upsert (db : database) (names : list string) (n : string) :
  sector_table_ok db -> In n names ->
  let db' := snd (Db.insert_or_update_sectors (VList (map VStr names)) db) in
  exists id,
    Db._get_sector_id (VStr n) db' = (Ok (VInt id), db') /\
    In [Int id; Text n] (rows_of "sector" db').
Proof.
  intros Hdb Hin db'. subst db'.
  assert (Hne : names <> []) by (intros ->; contradiction).
  destruct (insert_or_update_sectors_names db names Hdb Hne) as [_ [[t' [Hfind Ht']] Hn]].
  set (db' := snd (Db.insert_or_update_sectors (VList (map VStr names)) db)) in *.
  pose proof (occurrences_upsert_names names n (sector_names db) Hin) as Hocc.
  rewrite <- Hn, (sector_names_rows db' t' Hfind Ht'), occurrences_rows_named in Hocc.
  rewrite (get_sector_id_eval db' t' n Hfind Ht').
  destruct (rows_named n (rows t')) as [|r rs] eqn:Hrows; [discriminate|].
  destruct (rows_named_sound n (rows t') r (proj2 Ht')) as [id [-> Hr]];
    [rewrite Hrows; left; reflexivity|].
  exists id. split; [reflexivity|].
  unfold rows_of. rewrite Hfind. exact Hr.
Qed.

(** X5 at work: the sector "Energy" on the new store. *)
Lemma get_sector_id_after_upsert_witness :
  sector_table_ok Db._create_tables /\
  let db' := snd (Db.insert_or_update_sectors Examples.two_sectors Db._create_tables) in
  exists id,
    Db._get_sector_id (VStr "Energy") db' = (Ok (VInt id), db') /\
    In [Int id; Text "Energy"] (rows_of "sector" db').
Proof.
  assert (Hdb : sector_table_ok Db._create_tables).
  { exists (Db.__create_table Db._sector_columns).
    split; [reflexivity|]. split; [reflexivity | constructor]. }
  split; [exact Hdb|].
  apply (get_sector_id_after_upsert Db._create_tables ["Technology"; "Energy"] "Energy" Hdb).
  simpl. right. left. reflexivity.
Defined.

(** *** Filters on rows *)

Lemma filter_filter_rows (p q : list cell -> bool) (l : list (list cell)) :
  filter p (filter q l) = filter (fun r => q r && p r) l.
Proof.
  induction l as [|r l IH]; simpl; [reflexivity|].
  destruct (q r); simpl; [destruct (p r)|]; rewrite ?IH; reflexivity.
Qed.

Lemma filter_idem_rows (p : list cell -> bool) (l : list (list cell)) :
  filter p (filter p l) = filter p l.
Proof.
  rewrite filter_filter_rows. apply filter_ext. intros r. destruct (p r); reflexivity.
Qed.

Lemma filter_comm_rows (p q : list cell -> bool) (l : list (list cell)) :
  filter p (filter q l) = filter q (filter p l).
Proof.
  rewrite 2 filter_filter_rows. apply filter_ext. intros r. apply andb_comm.
Qed.

(** *** What an upsert of sectors does to the rows *)

Lemma is_autoincrement_sector (t : table) :
  schema t = Db._sector_columns -> is_autoincrement t = true.
Proof. unfold is_autoincrement. intros ->. reflexivity. Qed.

(** One upsert of a name, row by row: the rows with the name go, and a
    row with the next rowid is appended. *)
Lemma insert_or_replace_sector_rows (t : table) (s : string) :
  sector_table t ->
  insert_or_replace t ["name"] [Text s] =
  Ok (mk_table (schema t)
        (filter (fun r => negb (cell_eqb (Text s) (name_of r))) (rows t)
           ++ [[Int (next_rowid t); Text s]])%list
        (Z.max (sequence t) (next_rowid t))).
Proof.
  intros [Hs Hrows].
  pose (next := next_rowid t).
  pose (new := [Int next; Text s]).
  pose (kept := filter (fun old => negb (conflicts t new old)) (rows t)).
  assert (Hlt : forall id c, In [Int id; c] (rows t) -> id < next)
    by (intros id c Hin; exact (next_rowid_above t id c Hs Hin)).
  destruct (kept_rows_below t next s (rows t) Hs Hrows Hlt) as [_ Hbelow].
  assert (Hkept : kept = filter (fun r => negb (cell_eqb (Text s) (name_of r))) (rows t)).
  { subst kept. apply filter_ext_in. intros r Hr.
    rewrite Forall_forall in Hrows. destruct (Hrows r Hr) as [id [c ->]].
    subst new. rewrite (conflicts_sector t next id s c Hs (Hlt id c Hr)).
    reflexivity. }
  unfold insert_or_replace, draft_row. rewrite Hs.
  cbn [Db._sector_columns map col_name position String.eqb Ascii.eqb Bool.eqb
       nth assign_rowid primary_key bind violates_not_null combine existsb
       not_null andb orb].
  fold next. fold new. rewrite <- Hs. fold kept.
  rewrite (insert_sorted_last t new kept Hbelow).
  rewrite (is_autoincrement_sector t Hs).
  subst new. rewrite (rowid_of_sector t next (Text s) Hs).
  rewrite Hkept. reflexivity.
Qed.

Lemma next_rowid_grows (t : table) (s : string) (t' : table) :
  sector_table t -> insert_or_replace t ["name"] [Text s] = Ok t' ->
  sector_table t' /\ next_rowid t < next_rowid t'.
Proof.
  intros Ht H.
  destruct (insert_or_replace_sector t s Ht) as [t1 [H1 [Ht1 _]]].
  rewrite H in H1. inversion H1; subst t1. split; [exact Ht1|].
  rewrite (insert_or_replace_sector_rows t s Ht) in H. inversion H; subst t'.
  unfold next_rowid at 2. cbn [sequence].
  rewrite (is_autoincrement_sector _ (proj1 Ht1)). lia.
Qed.

Lemma not_among_cons (s : string) (names : list string) (c : cell) :
  not_among (s :: names) c = negb (cell_eqb (Text s) c) && not_among names c.
Proof. reflexivity. Qed.

Lemma other_rows_cons (s : string) (names : list string) (rs : list (list cell)) :
  other_rows (s :: names) rs =
  filter (fun r => negb (cell_eqb (Text s) (name_of r))) (other_rows names rs).
Proof.
  unfold other_rows. rewrite filter_filter_rows. apply filter_ext.
  intros r. rewrite not_among_cons. apply andb_comm.
Qed.

Lemma other_rows_filter_same (s : string) (names : list string) (rs : list (list cell)) :
  other_rows (s :: names)
    (filter (fun r => negb (cell_eqb (Text s) (name_of r))) rs)
  = other_rows (s :: names) rs.
Proof.
  unfold other_rows. rewrite filter_filter_rows. apply filter_ext.
  intros r. rewrite not_among_cons.
  destruct (negb (cell_eqb (Text s) (name_of r))); reflexivity.
Qed.

Lemma other_rows_app (names : list string) (a b : list (list cell)) :
  other_rows names (a ++ b)%list = (other_rows names a ++ other_rows names b)%list.
Proof. apply filter_app. Qed.

Lemma other_rows_new (s : string) (names : list string) (id : Z) :
  other_rows (s :: names) [[Int id; Text s]] = [].
Proof.
  unfold other_rows. cbn [filter].
  change (name_of [Int id; Text s]) with (Text s).
  rewrite (not_among_member (s :: names) s (or_introl eq_refl)). reflexivity.
Qed.

(** The batch, row by row: rows with other names stay as they are, and
    every row that carries a name of the batch is a new one whose id is
    at least the rowid that was next before the batch. *)
Lemma execute_each_sector_rows (names : list string) :
  forall t t',
    sector_table t ->
    Db.execute_each (mk_insert "sector" ["name"] 1) t
      (map values_of (map (fun s => VDict [(VStr "name", s)]) (map VStr names)))
      = (Ok tt, t') ->
    other_rows names (rows t') = other_rows names (rows t) /\
    (forall r, In r (rows t') -> not_among names (name_of r) = false ->
       exists id s, r = [Int id; Text s] /\ In s names /\ next_rowid t <= id) /\
    next_rowid t <= next_rowid t'.
Proof.
  induction names as [|s names IH]; intros t t' Ht Hrun.
  - inversion Hrun; subst t'. repeat split; try lia.
    intros r _ H. discriminate H.
  - cbn [map Db.execute_each values_of values snd bind bind_all List.length
         ins_marks ins_cols Nat.eqb mapM bind_value] in Hrun.
    pose proof (insert_or_replace_sector_rows t s Ht) as Hstep.
    destruct (insert_or_replace t ["name"] [Text s]) as [t1|e] eqn:Hins;
      [|discriminate Hstep].
    destruct (next_rowid_grows t s t1 Ht Hins) as [Ht1 Hgrow].
    destruct (IH t1 t' Ht1 Hrun) as [Hother [Hnew Hnext]].
    inversion Hstep as [Hrows1]. clear Hstep.
    assert (Hrows : rows t1 =
              (filter (fun r => negb (cell_eqb (Text s) (name_of r))) (rows t)
                 ++ [[Int (next_rowid t); Text s]])%list)
      by (rewrite Hrows1; reflexivity).
    split; [|split; [|lia]].
    + rewrite (other_rows_cons s names (rows t')), Hother,
              <- (other_rows_cons s names (rows t1)), Hrows.
      rewrite other_rows_app, other_rows_filter_same, other_rows_new.
      apply app_nil_r.
    + intros r Hr Hname. rewrite not_among_cons in Hname.
      destruct (not_among names (name_of r)) eqn:Hrest.
      * rewrite andb_true_r in Hname. apply negb_false_iff in Hname.
        assert (Hr1 : In r (rows t1)).
        { assert (H : In r (other_rows names (rows t')))
            by (apply filter_In; split; assumption).
          rewrite Hother in H. apply filter_In in H as [H _]. exact H. }
        rewrite Hrows in Hr1. apply in_app_or in Hr1 as [Hold | [<- | []]].
        -- apply filter_In in Hold as [_ Hold]. rewrite Hname in Hold. discriminate.
        -- exists (next_rowid t), s. split; [reflexivity|].
           split; [left; reflexivity | lia].
      * destruct (Hnew r Hr Hrest) as [id [s' [-> [Hs' Hid]]]].
        exists id, s'. split; [reflexivity|]. split; [right; exact Hs' | lia].
Qed.

(** The method on a non-empty list of names is the batch on the sector
    table. *)
Lemma insert_or_update_sectors_run (db : database) (names : list string) :
  sector_table_ok db -> names <> [] ->
  exists t t',
    find_table "sector" db = Some t /\ sector_table t /\
    Db.execute_each (mk_insert "sector" ["name"] 1) t
      (map values_of (map (fun s => VDict [(VStr "name", s)]) (map VStr names)))
      = (Ok tt, t') /\
    Db.insert_or_update_sectors (VList (map VStr names)) db
      = (Ok tt, set_table "sector" t' db).
Proof.
  intros [t [Hfind Ht]] Hne.
  destruct (execute_each_sector names t Ht) as [t' [Hrun _]].
  exists t, t'. repeat split; try assumption; try apply Ht.
  destruct names as [|s names]; [contradiction Hne; reflexivity|].
  unfold Db.insert_or_update_sectors, Db.__insert_or_update, Db._execute_many.
  cbn [isinstance_list iterate Db.lift Db.bindM Db.ret bind map].
  unfold subscript, index.
  cbn [List.length Z.of_nat Z.ltb Z.leb Z.compare orb Z.to_nat nth_error
       Db.lift Db.bindM bind keys_of keys map fst strings_of mapM iterate].
  unfold prepare_insert. cbn [ins_cols ins_table]. rewrite Hfind.
  destruct Ht as [Hs _]. unfold known_column, column_names. rewrite Hs.
  cbn [forallb Db._sector_columns map col_name position String.eqb Ascii.eqb
       Bool.eqb andb ins_marks List.length Nat.sub Nat.eqb ins_cols].
  cbn [map] in Hrun. rewrite Hrun. reflexivity.
Qed.

(** X6.  [insert_or_update_sectors] leaves the sector rows that carry
    none of the given names exactly as they were: same rows, same ids,
    same order. *)
Theorem upsert_sectors_keeps_other_rows (db : database) (names : list string) :
  sector_table_ok db -> names <> [] ->
  other_rows names
    (rows_of "sector" (snd (Db.insert_or_update_sectors (VList (map VStr names)) db)))
  = other_rows names (rows_of "sector" db).
Proof.
  intros Hdb Hne.
  destruct (insert_or_update_sectors_run db names Hdb Hne)
    as [t [t' [Hfind [Ht [Hrun Hcall]]]]].
  rewrite Hcall. cbn [snd]. unfold rows_of.
  rewrite (find_set_table "sector" t t' db Hfind), Hfind.
  apply (execute_each_sector_rows names t t' Ht Hrun).
Qed.

(** X6 at work: upserting "Energy" next to a stored "Technology". *)
Lemma upsert_sectors_keeps_other_rows_witness :
  let db := snd (Db.insert_or_update_sectors Examples.technology Db._create_tables) in
  sector_table_ok db /\
  other_rows ["Energy"]
    (rows_of "sector" (snd (Db.insert_or_update_sectors (VList [VStr "Energy"]) db)))
  = [[Int 1; Text "Technology"]].
Proof.
  intros db.
  assert (Hdb : sector_table_ok db).
  { exists (mk_table Db._sector_columns [[Int 1; Text "Technology"]] 1).
    split; [reflexivity|]. split; [reflexivity|].
    constructor; [|constructor]. exists 1, (Text "Technology"). reflexivity. }
  split; [exact Hdb|].
  assert (Hne : ["Energy"] <> []) by discriminate.
  exact (upsert_sectors_keeps_other_rows db ["Energy"] Hdb Hne).
Defined.

(** X7.  [insert_or_update_sectors] never keeps or reuses a
    [sector_id]: afterwards every row that carries one of the given names
    has an id greater than every id the table held before, also when the
    name was already stored. *)
Theorem upsert_sectors_gives_new_ids
    (db : database) (names : list string) (n : string) (id : Z) :
  sector_table_ok db -> In n names ->
  In [Int id; Text n]
     (rows_of "sector" (snd (Db.insert_or_update_sectors (VList (map VStr names)) db))) ->
  forall id0 c0, In [Int id0; c0] (rows_of "sector" db) -> id0 < id.
Proof.
  intros Hdb Hin Hrow id0 c0 Hold.
  assert (Hne : names <> []) by (intros ->; contradiction).
  destruct (insert_or_update_sectors_run db names Hdb Hne)
    as [t [t' [Hfind [Ht [Hrun Hcall]]]]].
  rewrite Hcall in Hrow. cbn [snd] in Hrow. unfold rows_of in Hrow, Hold.
  rewrite (find_set_table "sector" t t' db Hfind) in Hrow. rewrite Hfind in Hold.
  destruct (execute_each_sector_rows names t t' Ht Hrun) as [_ [Hnew _]].
  destruct (Hnew _ Hrow) as [id' [s' [Heq [_ Hge]]]].
  - change (name_of [Int id; Text n]) with (Text n).
    apply not_among_member, Hin.
  - inversion Heq; subst id'.
    pose proof (next_rowid_above t id0 c0 (proj1 Ht) Hold). lia.
Qed.

(** X7 at work: upserting "Technology" again moves it from id 1 to 2. *)
Lemma upsert_sectors_gives_new_ids_witness :
  let db := snd (Db.insert_or_update_sectors Examples.technology Db._create_tables) in
  sector_table_ok db /\
  In [Int 1; Text "Technology"] (rows_of "sector" db) /\
  In [Int 2; Text "Technology"]
     (rows_of "sector" (snd (Db.insert_or_update_sectors Examples.technology db))) /\
  1 < 2.
Proof.
  intros db.
  assert (Hdb : sector_table_ok db).
  { exists (mk_table Db._sector_columns [[Int 1; Text "Technology"]] 1).
    split; [reflexivity|]. split; [reflexivity|].
    constructor; [|constructor]. exists 1, (Text "Technology"). reflexivity. }
  assert (Hold : In [Int 1; Text "Technology"] (rows_of "sector" db))
    by (left; reflexivity).
  assert (Hnew : In [Int 2; Text "Technology"]
            (rows_of "sector" (snd (Db.insert_or_update_sectors Examples.technology db))))
    by (left; reflexivity).
  split; [exact Hdb|]. split; [exact Hold|]. split; [exact Hnew|].
  apply (upsert_sectors_gives_new_ids db ["Technology"] "Technology" 2 Hdb
           (or_introl eq_refl) Hnew 1 (Text "Technology") Hold).
Defined.

(** X8.  On a store with its sector table [get_sectors] returns at most
    one name: it raises [IndexError] when the table is empty and otherwise
    returns the one-element tuple with the name of the first row, however
    many rows there are. *)
Theorem get_sectors_first_row (db : database) :
  sector_table_ok db ->
  Db.get_sectors db =
  match rows_of "sector" db with
  | [] => (Raise IndexError, db)
  | r :: _ => (Ok (VTuple [value_of_cell (name_of r)]), db)
  end.
Proof.
  intros [t [Hfind [Hs _]]].
  unfold Db.get_sectors, Db._select_row, Db._select_rows, Db.bindM, Db.lift, rows_of.
  unfold prepare_select. cbn [sel_table sel_col sel_where]. rewrite Hfind.
  unfold known_column, column_names. rewrite Hs.
  cbn [Db._sector_columns map col_name position String.eqb Ascii.eqb Bool.eqb
       andb bind bind_all List.length Nat.eqb mapM].
  unfold select.
  replace (filter (fun _ : list cell => true) (rows t)) with (rows t)
    by (clear; induction (rows t) as [|r rs IH]; simpl; congruence).
  destruct (rows t) as [|r rs]; [reflexivity|].
  cbn [map]. unfold index. cbn [List.length].
  rewrite (field_name_sector t r Hs).
  destruct (Z.of_nat (S (List.length (map (fun row => VTuple [value_of_cell (field t "name" row)]) rs)))) eqn:Hn;
    try lia; reflexivity.
Qed.

(** X8 at work on the new store. *)
Lemma get_sectors_first_row_witness :
  sector_table_ok Db._create_tables /\
  Db.get_sectors Db._create_tables = (Raise IndexError, Db._create_tables).
Proof.
  assert (Hdb : sector_table_ok Db._create_tables).
  { exists (Db.__create_table Db._sector_columns).
    split; [reflexivity|]. split; [reflexivity | constructor]. }
  split; [exact Hdb|].
  exact (get_sectors_first_row Db._create_tables Hdb).
Defined.

(** *** No method creates a table *)

Lemma keeps_tables_ret {A : Type} (a : A) : keeps_tables (Db.ret a).
Proof. intros db name. reflexivity. Qed.

Lemma keeps_tables_lift {A : Type} (r : result A) : keeps_tables (Db.lift r).
Proof. intros db name. reflexivity. Qed.

Lemma keeps_tables_bind {A B : Type} (m : Db.M A) (k : A -> Db.M B) :
  keeps_tables m -> (forall a, keeps_tables (k a)) -> keeps_tables (Db.bindM m k).
Proof.
  intros Hm Hk db name. unfold Db.bindM.
  specialize (Hm db name). destruct (m db) as [[a|e] db']; simpl in *.
  - rewrite (Hk a db' name). exact Hm.
  - exact Hm.
Qed.

Lemma keeps_tables_mapM {A B : Type} (f : A -> Db.M B) (l : list A) :
  (forall x, keeps_tables (f x)) -> keeps_tables (Db.mapM_M f l).
Proof.
  intros Hf. induction l as [|x l IH]; simpl.
  - apply keeps_tables_ret.
  - apply keeps_tables_bind; [apply Hf|]. intros y.
    apply keeps_tables_bind; [exact IH|]. intros ys. apply keeps_tables_ret.
Qed.

Lemma keeps_tables_for_each (v : val) (body : val -> Db.M val) :
  (forall x, keeps_tables (body x)) -> keeps_tables (Db.for_each v body).
Proof.
  intros Hb. unfold Db.for_each.
  destruct v;
    repeat first
      [ apply keeps_tables_bind; [|intros ?]
      | apply keeps_tables_mapM; exact Hb
      | apply keeps_tables_lift
      | apply keeps_tables_ret ].
Qed.

Lemma has_table_set_table (name n : string) (t t' : table) (db : database) :
  find_table n db = Some t ->
  has_table name (set_table n t' db) = has_table name db.
Proof.
  unfold has_table. induction db as [|[m t0] db IH]; simpl; [discriminate|].
  destruct (String.eqb_spec m n) as [->|Hmn]; simpl.
  - intros _. destruct (String.eqb n name); reflexivity.
  - intros H. destruct (String.eqb m name); [reflexivity | exact (IH H)].
Qed.

Lemma keeps_tables_execute_many (sql : insert_statement)
    (gen : list (result (list val))) :
  keeps_tables (Db._execute_many sql gen).
Proof.
  intros db name. unfold Db._execute_many.
  destruct (prepare_insert db sql) as [t|e] eqn:Hp; [|reflexivity].
  destruct (Db.execute_each sql t gen) as [r t']. simpl.
  apply (has_table_set_table name (ins_table sql) t t' db).
  unfold prepare_insert in Hp.
  destruct (ins_cols sql); [discriminate|].
  destruct (find_table (ins_table sql) db) as [t0|]; [|discriminate].
  destruct (forallb (known_column t0) (s :: l) &&
            Nat.eqb (ins_marks sql) (List.length (s :: l))); [|discriminate].
  inversion Hp. reflexivity.
Qed.

Lemma keeps_tables_select_row (sql : select_statement) (params : list val) :
  keeps_tables (Db._select_row sql params).
Proof.
  unfold Db._select_row. apply keeps_tables_bind.
  - intros db name. reflexivity.
  - intros rows. apply keeps_tables_lift.
Qed.

Lemma keeps_tables_insert_or_update (table_name : string) (list_of_dicts : val)
    (remove_keys : list string) :
  keeps_tables (Db.__insert_or_update table_name list_of_dicts remove_keys).
Proof.
  unfold Db.__insert_or_update.
  apply keeps_tables_bind.
  - destruct remove_keys; [apply keeps_tables_ret|].
    apply keeps_tables_for_each. intros x. apply keeps_tables_lift.
  - intros l. repeat (apply keeps_tables_bind; [apply keeps_tables_lift | intros ?]).
    apply keeps_tables_execute_many.
Qed.

Lemma keeps_tables_symbols (symbol_dicts : val) :
  keeps_tables (Db.insert_or_update_symbols symbol_dicts).
Proof.
  unfold Db.insert_or_update_symbols.
  repeat (apply keeps_tables_bind; [apply keeps_tables_lift | intros ?]).
  apply keeps_tables_bind.
  - destruct a1; [|apply keeps_tables_ret].
    apply keeps_tables_for_each. intros x.
    apply keeps_tables_bind; [apply keeps_tables_lift | intros [industry d]].
    apply keeps_tables_bind; [|intros ?; apply keeps_tables_lift].
    unfold Db._get_industry_id.
    apply keeps_tables_bind; [apply keeps_tables_select_row|].
    intros ?. apply keeps_tables_lift.
  - intros ?. apply keeps_tables_insert_or_update.
Qed.

(** The four public upserts keep the set of tables, whatever they are
    given and however they end. *)
Lemma upserts_keep_tables (v : val) :
  keeps_tables (Db.insert_or_update_sectors v) /\
  keeps_tables (Db.insert_or_update_industries v) /\
  keeps_tables (Db.insert_or_update_symbols v) /\
  keeps_tables (Db.insert_or_update_stats v).
Proof.
  repeat split.
  - unfold Db.insert_or_update_sectors.
    apply keeps_tables_bind; [apply keeps_tables_lift | intros ?].
    apply keeps_tables_insert_or_update.
  - unfold Db.insert_or_update_industries.
    repeat (apply keeps_tables_bind; [apply keeps_tables_lift | intros ?]).
    apply keeps_tables_bind; [|intros ?; apply keeps_tables_insert_or_update].
    apply keeps_tables_mapM. intros x.
    apply keeps_tables_bind; [apply keeps_tables_lift | intros [i s]].
    apply keeps_tables_bind; [|intros ?; apply keeps_tables_ret].
    unfold Db._get_sector_id.
    apply keeps_tables_bind; [apply keeps_tables_select_row|].
    intros ?. apply keeps_tables_lift.
  - apply keeps_tables_symbols.
  - unfold Db.insert_or_update_stats.
    repeat (apply keeps_tables_bind; [apply keeps_tables_lift | intros ?]).
    apply keeps_tables_bind; [apply keeps_tables_symbols|].
    intros ?. apply keeps_tables_insert_or_update.
Qed.

Lemma get_instrument_needs_table (symbol : val) (db : database) :
  has_table "instrument" db = false ->
  Db.get_instrument symbol db = (Raise OperationalError, db).
Proof.
  unfold has_table. intros H.
  unfold Db.get_instrument, Db._select_row_columns, Db._select_rows_columns,
    Db.bindM, Db.lift, prepare_select_columns.
  cbn [selc_table selc_cols Db._stats_columns map].
  destruct (find_table "instrument" db); [discriminate | reflexivity].
Qed.

(** X9.  [get_instrument] cannot succeed on a store that this class
    creates and fills: it selects from a table [instrument], which
    [_create_tables] does not create, and none of the four upserts creates
    a table either.  So on the new store, and after any upsert with any
    argument, it raises [OperationalError]. *)
Theorem get_instrument_raises_without_table (symbol v : val) (db : database) :
  has_table "instrument" db = false ->
  Db.get_instrument symbol db = (Raise OperationalError, db) /\
  (forall db', db' = snd (Db.insert_or_update_sectors v db) \/
               db' = snd (Db.insert_or_update_industries v db) \/
               db' = snd (Db.insert_or_update_symbols v db) \/
               db' = snd (Db.insert_or_update_stats v db) ->
     Db.get_instrument symbol db' = (Raise OperationalError, db')).
Proof.
  intros H. split; [apply get_instrument_needs_table, H|].
  destruct (upserts_keep_tables v) as [H1 [H2 [H3 H4]]].
  intros db' [-> | [-> | [-> | ->]]]; apply get_instrument_needs_table.
  - rewrite H1. exact H.
  - rewrite H2. exact H.
  - rewrite H3. exact H.
  - rewrite H4. exact H.
Qed.

(** X9 at work: the new store, before and after storing two sectors. *)
Lemma get_instrument_witness :
  has_table "instrument" Db._create_tables = false /\
  Db.get_instrument (VStr "ABC") Db._create_tables
    = (Raise OperationalError, Db._create_tables) /\
  Db.get_instrument (VStr "ABC")
    (snd (Db.insert_or_update_sectors Examples.two_sectors Db._create_tables))
    = (Raise OperationalError,
       snd (Db.insert_or_update_sectors Examples.two_sectors Db._create_tables)).
Proof.
  assert (H : has_table "instrument" Db._create_tables = false) by reflexivity.
  destruct (get_instrument_raises_without_table (VStr "ABC") Examples.two_sectors
              Db._create_tables H) as [H1 H2].
  split; [exact H|]. split; [exact H1|].
  apply H2. left. reflexivity.
Defined.

(** * Further properties of the minute-bar provider *)

(** The header loop stops at the first [volume] line and hands on the
    rows after it. *)
Lemma scan_header_cut (symbol v : string) (pre post : list string) :
  forallb plain_line pre = true ->
  Str.startswith v "error" = false -> Str.startswith v "volume" = true ->
  Minute.scan_header symbol (pre ++ v :: post)%list = ([], Ok (false, Some post)).
Proof.
  intros Hpre He Hv. induction pre as [|row pre IH]; simpl.
  - rewrite He, Hv. reflexivity.
  - simpl in Hpre. apply andb_prop in Hpre as [Hrow Hpre].
    unfold plain_line in Hrow. apply andb_prop in Hrow as [H1 H2].
    destruct (Str.startswith row "error"); [discriminate|].
    destruct (Str.startswith row "volume"); [discriminate|].
    apply IH, Hpre.
Qed.

(** X10.  Header stripping.  When the first line that starts with
    [volume] comes after plain lines only, every line up to and including
    it is dropped and exactly the lines after it go through the date
    conversion; a header with nothing after it yields an empty row
    list. *)
Theorem header_is_cut_at_first_volume_line
    (utcoffset : Z -> Z) (fmt : format) (symbol_of : string -> string)
    (now : time) (data file_path v : string) (pre post : list string) :
  lines_of data = (pre ++ v :: post)%list ->
  forallb plain_line pre = true ->
  Str.startswith v "error" = false -> Str.startswith v "volume" = true ->
  Minute.process_one utcoffset fmt symbol_of now data file_path =
    match mapM (Minute.convert_row utcoffset fmt) post with
    | Ok rows => ([], Minute.Yield (Minute.withhold now rows))
    | Raise e => ([Minute.DateError (symbol_of file_path) e], Minute.Skip)
    end /\
  (post = [] ->
   Minute.process_one utcoffset fmt symbol_of now data file_path
     = ([], Minute.Yield [])).
Proof.
  intros Hlines Hpre He Hv.
  assert (Hrun : Minute.process_one utcoffset fmt symbol_of now data file_path =
    match mapM (Minute.convert_row utcoffset fmt) post with
    | Ok rows => ([], Minute.Yield (Minute.withhold now rows))
    | Raise e => ([Minute.DateError (symbol_of file_path) e], Minute.Skip)
    end).
  { unfold Minute.process_one. fold (lines_of data). rewrite Hlines.
    rewrite (scan_header_cut _ v pre post Hpre He Hv).
    destruct (mapM (Minute.convert_row utcoffset fmt) post); reflexivity. }
  split; [exact Hrun|].
  intros ->. rewrite Hrun. reflexivity.
Qed.

(** X10 at work on the payload ["junk\nvolume,date\n1000000000,..."]:
    one cleaned row, from the line after the header. *)
Lemma header_is_cut_witness :
  lines_of header_payload =
    (["junk"] ++ "volume,date" :: ["1000000000,1.0,2.0,0.5,1.5,100"])%list /\
  Minute.process_one Examples.eastern Examples.iso_format Examples.file_name
    (mk_time 17 0 0 0) header_payload "AAPL.csv"
  = ([], Minute.Yield ["2001-09-08 20:46:40,1.0,2.0,0.5,1.5,100"]).
Proof.
  assert (H : lines_of header_payload =
    (["junk"] ++ "volume,date" :: ["1000000000,1.0,2.0,0.5,1.5,100"])%list)
    by (vm_compute; reflexivity).
  split; [exact H|].
  exact (proj1 (header_is_cut_at_first_volume_line Examples.eastern Examples.iso_format
                  Examples.file_name (mk_time 17 0 0 0) header_payload "AAPL.csv"
                  "volume,date" ["junk"] ["1000000000,1.0,2.0,0.5,1.5,100"]
                  H eq_refl eq_refl eq_refl)).
Defined.

(** X11 at work (see [error_line_never_yields]): the failure payload of
    the provider is skipped. *)
Lemma error_line_never_yields_witness :
  In "error" (lines_of error_payload) /\
  (snd (Minute.process_one Examples.eastern Examples.iso_format Examples.file_name
          (mk_time 10 0 0 0) error_payload "AAPL.csv") = Minute.Skip \/
   snd (Minute.process_one Examples.eastern Examples.iso_format Examples.file_name
          (mk_time 10 0 0 0) error_payload "AAPL.csv") = Minute.Abort IndexError).
Proof.
  assert (H : In "error" (lines_of error_payload)) by (left; reflexivity).
  split; [exact H|].
  exact (error_line_never_yields Examples.eastern Examples.iso_format Examples.file_name
           (mk_time 10 0 0 0) error_payload "AAPL.csv" "error" H eq_refl).
Defined.

(** *** The generator as a whole *)





(** The run over [pre ++ rest] when the run over [pre] gets through. *)
Lemma process_from_app (utcoffset : Z -> Z) (fmt : format)
    (symbol_of : string -> string) (clock : nat -> time)
    (pre rest : list (string * string)) :
  forall i,
    Minute.raised (Minute.process_from utcoffset fmt symbol_of clock i pre) = None ->
    Minute.process_from utcoffset fmt symbol_of clock i (pre ++ rest)%list =
    Minute.mk_run
      (Minute.yielded (Minute.process_from utcoffset fmt symbol_of clock i pre)
         ++ Minute.yielded
              (Minute.process_from utcoffset fmt symbol_of clock (i + List.length pre) rest))%list
      (Minute.printed (Minute.process_from utcoffset fmt symbol_of clock i pre)
         ++ Minute.printed
              (Minute.process_from utcoffset fmt symbol_of clock (i + List.length pre) rest))%list
      (Minute.raised
         (Minute.process_from utcoffset fmt symbol_of clock (i + List.length pre) rest)).
Proof.
  induction pre as [|[data path] pre IH]; intros i Hnone; simpl.
  - rewrite Nat.add_0_r.
    destruct (Minute.process_from utcoffset fmt symbol_of clock i rest); reflexivity.
  - simpl in Hnone.
    destruct (Minute.process_one utcoffset fmt symbol_of (clock i) data path)
      as [out [rows0| |e']]; simpl in *; try discriminate;
      rewrite (IH (S i) Hnone); simpl; rewrite Nat.add_succ_r, ?app_assoc; reflexivity.
Qed.


(** X13.  The generator stops at the first symbol-day whose header loop
    raises: what it has yielded and printed up to there stands, the
    exception leaves it, and no later symbol-day is looked at. *)
Theorem generator_stops_at_abort
    (utcoffset : Z -> Z) (fmt : format) (symbol_of : string -> string)
    (clock : nat -> time) (pre post : list (string * string))
    (data file_path : string) (out : list Minute.message) (e : exn) :
  Minute.raised (Minute.process_downloaded_data utcoffset fmt symbol_of clock pre) = None ->
  Minute.process_one utcoffset fmt symbol_of (clock (List.length pre)) data file_path
    = (out, Minute.Abort e) ->
  Minute.process_downloaded_data utcoffset fmt symbol_of clock
    (pre ++ (data, file_path) :: post)%list =
  Minute.mk_run
    (Minute.yielded (Minute.process_downloaded_data utcoffset fmt symbol_of clock pre))
    (Minute.printed (Minute.process_downloaded_data utcoffset fmt symbol_of clock pre)
       ++ out)%list
    (Some e).
Proof.
  unfold Minute.process_downloaded_data. intros Hpre Hone.
  rewrite (process_from_app utcoffset fmt symbol_of clock pre _ O Hpre).
  cbn [Nat.add Minute.process_from]. rewrite Hone. cbn [Minute.yielded Minute.printed Minute.raised].
  rewrite app_nil_r. reflexivity.
Qed.

(** X13 at work: a good symbol-day, then the payload ["error"], then
    another good one that is never reached. *)
Lemma generator_stops_at_abort_witness :
  Minute.process_downloaded_data Examples.eastern Examples.iso_format Examples.file_name
    (fun _ => mk_time 17 0 0 0)
    ([(header_payload, "AAA.csv")] ++ ("error", "BBB.csv") :: [(two_row_payload, "CCC.csv")])%list
  = Minute.mk_run [(["2001-09-08 20:46:40,1.0,2.0,0.5,1.5,100"], "AAA.csv")] []
      (Some IndexError).
Proof.
  exact (generator_stops_at_abort Examples.eastern Examples.iso_format Examples.file_name
           (fun _ => mk_time 17 0 0 0) [(header_payload, "AAA.csv")]
           [(two_row_payload, "CCC.csv")] "error" "BBB.csv" [] IndexError
           eq_refl eq_refl).
Defined.


(** *** What [row_to_bar] reads *)

Lemma nth_error_firstn_lt {A : Type} (n i : nat) (l : list A) :
  (i < n)%nat -> nth_error (firstn n l) i = nth_error l i.
Proof.
  revert i l. induction n as [|n IH]; intros i l Hi; [lia|].
  destruct l as [|x l]; [destruct i; reflexivity|].
  destruct i as [|i]; [reflexivity|]. simpl. apply IH. lia.
Qed.

Lemma getitem_firstn {A : Type} (l1 l2 : list A) (n i : nat) :
  firstn n l1 = firstn n l2 -> (i < n)%nat ->
  Minute.getitem l1 i = Minute.getitem l2 i.
Proof.
  intros H Hi. unfold Minute.getitem.
  rewrite <- (nth_error_firstn_lt n i l1 Hi), <- (nth_error_firstn_lt n i l2 Hi), H.
  reflexivity.
Qed.

(** X14.  [row_to_bar] looks at the first six comma-separated fields and
    at nothing else: two rows that agree on them decode alike, whatever
    follows. *)
Theorem row_to_bar_ignores_later_fields
    (utcoffset : Z -> Z) (fmt : format) (row1 row2 : string) :
  firstn 6 (Str.split Str.comma row1) = firstn 6 (Str.split Str.comma row2) ->
  Minute.row_to_bar utcoffset fmt row1 = Minute.row_to_bar utcoffset fmt row2.
Proof.
  intros H. unfold Minute.row_to_bar.
  rewrite (getitem_firstn _ _ 6 0 H) by lia.
  rewrite (getitem_firstn _ _ 6 1 H) by lia.
  rewrite (getitem_firstn _ _ 6 2 H) by lia.
  rewrite (getitem_firstn _ _ 6 3 H) by lia.
  rewrite (getitem_firstn _ _ 6 4 H) by lia.
  rewrite (getitem_firstn _ _ 6 5 H) by lia.
  reflexivity.
Qed.

(** X14 at work: a seventh column changes nothing. *)
Lemma row_to_bar_ignores_later_fields_witness :
  Minute.row_to_bar Examples.eastern Examples.iso_format
    "1357120800,1.00,2.00,0.50,1.50,100,anything,else"
  = Minute.row_to_bar Examples.eastern Examples.iso_format
      "1357120800,1.00,2.00,0.50,1.50,100".
Proof.
  apply (row_to_bar_ignores_later_fields Examples.eastern Examples.iso_format
           "1357120800,1.00,2.00,0.50,1.50,100,anything,else"
           "1357120800,1.00,2.00,0.50,1.50,100").
  vm_compute. reflexivity.
Defined.

(** The constructor hands back the bar it was given, with a volume that
    is not negative. *)
Lemma init_inr_fields (date : datetime) (open_ high low close volume adj : float)
    (b : Bar.Bar) :
  Bar.init date open_ high low close volume adj = inr b ->
  b = Bar.mk_Bar date open_ high low close volume adj /\
  geb volume zero = true.
Proof.
  unfold Bar.init. simpl.
  destruct (leb low open_); simpl; [|discriminate].
  destruct (leb low close); simpl; [|discriminate].
  destruct (leb low high); simpl; [|discriminate].
  destruct (geb high open_); simpl; [|discriminate].
  destruct (geb high close); simpl; [|discriminate].
  destruct (geb high low); simpl; [|discriminate].
  destruct (geb volume zero); simpl; [|discriminate].
  intros H. inversion H. split; reflexivity.
Qed.

(** X15.  [row_to_bar] returns, with a bar or with a failure text, only
    for a row of at least six fields whose second to sixth fields
    [float()] accepts; a shorter row makes it raise.  In a returned bar the
    fields are taken in wire order, close before open: close, high, low,
    open, volume are the floats of fields 1 to 5, and the adjusted close
    is the close. *)
Theorem row_to_bar_reads_wire_order
    (utcoffset : Z -> Z) (fmt : format) (row : string) :
  ((List.length (Str.split Str.comma row) < 6)%nat ->
   is_ok (Minute.row_to_bar utcoffset fmt row) = false) /\
  (forall r, Minute.row_to_bar utcoffset fmt row = Ok r ->
     exists f0 f1 f2 f3 f4 f5 rest close high low open_ volume,
       Str.split Str.comma row = f0 :: f1 :: f2 :: f3 :: f4 :: f5 :: rest /\
       py_float f1 = Ok close /\ py_float f2 = Ok high /\ py_float f3 = Ok low /\
       py_float f4 = Ok open_ /\ py_float f5 = Ok volume /\
       (forall b, r = Minute.Decoded b ->
          Bar.get_close b = close /\ Bar.get_high b = high /\ Bar.get_low b = low /\
          Bar.get_open b = open_ /\ Bar.get_volume b = volume /\
          Bar.get_adj_close b = close)).
Proof.
  assert (Hmain : forall r, Minute.row_to_bar utcoffset fmt row = Ok r ->
     exists f0 f1 f2 f3 f4 f5 rest close high low open_ volume,
       Str.split Str.comma row = f0 :: f1 :: f2 :: f3 :: f4 :: f5 :: rest /\
       py_float f1 = Ok close /\ py_float f2 = Ok high /\ py_float f3 = Ok low /\
       py_float f4 = Ok open_ /\ py_float f5 = Ok volume /\
       (forall b, r = Minute.Decoded b ->
          Bar.get_close b = close /\ Bar.get_high b = high /\ Bar.get_low b = low /\
          Bar.get_open b = open_ /\ Bar.get_volume b = volume /\
          Bar.get_adj_close b = close)).
  { intros r H. unfold Minute.row_to_bar, Minute.getitem in H.
    destruct (Str.split Str.comma row) as [|f0 [|f1 [|f2 [|f3 [|f4 [|f5 rest]]]]]];
      cbn [nth_error bind] in H;
      repeat match type of H with
             | bind ?m _ = Ok _ =>
                 let E := fresh "E" in
                 destruct m eqn:E; cbn [bind] in H; [|discriminate H]
             end;
      try discriminate H.
    match goal with
    | E1 : py_float f1 = Ok ?c, E2 : py_float f2 = Ok ?h, E3 : py_float f3 = Ok ?l,
      E4 : py_float f4 = Ok ?o, E5 : py_float f5 = Ok ?v |- _ =>
        exists f0, f1, f2, f3, f4, f5, rest, c, h, l, o, v;
        repeat (split; [first [reflexivity | assumption]|]);
        intros b ->;
        match type of H with
        | match Bar.init ?d o h l c v c with _ => _ end = _ =>
            destruct (Bar.init d o h l c v c) as [msg|b'] eqn:Hinit;
            [discriminate H|];
            inversion H; subst b';
            destruct (init_inr_fields _ _ _ _ _ _ _ _ Hinit) as [-> _];
            repeat split; reflexivity
        end
    end. }
  split; [|exact Hmain].
  intros Hlen.
  destruct (Minute.row_to_bar utcoffset fmt row) as [r|e] eqn:Hr; [|reflexivity].
  destruct (Hmain r eq_refl)
    as (f0 & f1 & f2 & f3 & f4 & f5 & rest & c & h & l & o & v & Hsplit & _).
  rewrite Hsplit in Hlen. simpl in Hlen. lia.
Qed.

(** X15 at work: a row of five fields, and the row of a 05:00 bar. *)
Lemma row_to_bar_reads_wire_order_witness :
  is_ok (Minute.row_to_bar Examples.eastern Examples.iso_format
           "1357120800,1.00,2.00,0.50,1.50") = false /\
  exists f0 f1 f2 f3 f4 f5 rest close high low open_ volume,
    Str.split Str.comma "1357120800,1.00,2.00,0.50,1.50,100"
      = f0 :: f1 :: f2 :: f3 :: f4 :: f5 :: rest /\
    py_float f1 = Ok close /\ py_float f2 = Ok high /\ py_float f3 = Ok low /\
    py_float f4 = Ok open_ /\ py_float f5 = Ok volume /\
    (forall b,
       Minute.Decoded
         (Bar.mk_Bar (mk_datetime 2013 1 2 5 0 0 0)
            (of_decimal false 15 (-1)) (of_decimal false 2 0) (of_decimal false 5 (-1))
            (of_decimal false 1 0) (of_decimal false 100 0) (of_decimal false 1 0))
       = Minute.Decoded b ->
       Bar.get_close b = close /\ Bar.get_high b = high /\ Bar.get_low b = low /\
       Bar.get_open b = open_ /\ Bar.get_volume b = volume /\
       Bar.get_adj_close b = close).
Proof.
  split.
  - apply (proj1 (row_to_bar_reads_wire_order Examples.eastern Examples.iso_format
                    "1357120800,1.00,2.00,0.50,1.50")).
    vm_compute. lia.
  - apply (proj2 (row_to_bar_reads_wire_order Examples.eastern Examples.iso_format
                    "1357120800,1.00,2.00,0.50,1.50,100")).
    vm_compute. reflexivity.
Defined.

(** X16.  Encoding what was decoded.  A bar that [row_to_bar] returned is
    accepted by [bar_to_row], with one exception: a volume of plus
    infinity passes the constructor and then makes ['%i' % volume] raise
    [TypeError]. *)
Theorem decoded_bar_encodes_unless_volume_infinite
    (utcoffset : Z -> Z) (fmt : format) (row : string) (b : Bar.Bar) :
  Minute.row_to_bar utcoffset fmt row = Ok (Minute.Decoded b) ->
  (Bar.get_volume b = S754_infinity false /\
   Minute.bar_to_row b = Raise TypeError) \/
  (exists row', Minute.bar_to_row b = Ok row').
Proof.
  intros H. rewrite row_to_bar_parsed in H.
  destruct (parsed_fields utcoffset fmt row)
    as [[[[[[date close] high] low] open_] volume]|e]; simpl in H; [|discriminate].
  destruct (Bar.init date open_ high low close volume close) as [msg|b'] eqn:Hinit;
    [discriminate|].
  inversion H; subst b'.
  destruct (init_inr_fields _ _ _ _ _ _ _ _ Hinit) as [-> Hvol].
  unfold Minute.bar_to_row. cbn [Bar.get_volume].
  destruct volume as [s|[|]| |s m e]; try discriminate Hvol.
  - right. eexists. reflexivity.
  - left. split; reflexivity.
  - right. eexists. reflexivity.
Qed.

(** X16 at work: the row with volume [inf] decodes to a bar that
    [bar_to_row] refuses. *)
Lemma decoded_bar_encodes_witness :
  let b := Bar.mk_Bar (mk_datetime 2013 1 2 5 0 0 0)
             (of_decimal false 15 (-1)) (of_decimal false 2 0) (of_decimal false 5 (-1))
             (of_decimal false 1 0) (S754_infinity false) (of_decimal false 1 0) in
  Minute.row_to_bar Examples.eastern Examples.iso_format
    "1357120800,1.00,2.00,0.50,1.50,inf" = Ok (Minute.Decoded b) /\
  ((Bar.get_volume b = S754_infinity false /\
    Minute.bar_to_row b = Raise TypeError) \/
   (exists row', Minute.bar_to_row b = Ok row')).
Proof.
  intros b.
  assert (H : Minute.row_to_bar Examples.eastern Examples.iso_format
                "1357120800,1.00,2.00,0.50,1.50,inf" = Ok (Minute.Decoded b))
    by (vm_compute; reflexivity).
  split; [exact H|].
  exact (decoded_bar_encodes_unless_volume_infinite Examples.eastern Examples.iso_format
           "1357120800,1.00,2.00,0.50,1.50,inf" b H).
Defined.
